(** * data_collector.py: the options data pipeline

    A shallow embedding of [src/data_collector.py]: the Fetcher
    ([fetch_options_data]), the Feature Processor
    ([process_and_clean_data]) and the top-level script ([main]).

    - A pandas [DataFrame] is an ordered list of column names and a list
      of labelled rows; a row maps column names to cells.  Cells are
      dynamically typed, as a pandas column is: float64 values are Rocq's
      binary64 floats (so [nan], [infinity] and rounding are the ones
      numpy computes with), int64 values are integers with wrap-around,
      timestamps are nanoseconds since the epoch.
    - Exceptions are an error result; the script runs in a state and
      exception monad whose state is the clock, the console and the file
      system.
    - The quote source (yfinance), the clock and the parser behind
      [pd.to_datetime] are outside the repository: they are the
      variables of the section below. *)

From Stdlib Require Import ZArith Ascii String Floats Uint63.
From stdpp Require Import gmap strings list pretty.

Set Warnings "-inexact-float".

Local Open Scope Z_scope.

(** ** Exceptions and results *)

Inductive exn :=
| IndexError
| KeyError (key : string)
| TypeError
| ValueError
| AttributeError
| SourceError (msg : string). (* anything else the quote source raises *)

Inductive result (A : Type) :=
| Ok (a : A)
| Raise (e : exn).
Arguments Ok {A} a.
Arguments Raise {A} e.

#[global] Instance result_ret : MRet result := @Ok.
#[global] Instance result_bind : MBind result := fun A B f m =>
  match m with
  | Ok a => f a
  | Raise e => Raise e
  end.

#[global] Instance result_fmap : FMap result := fun A B f m =>
  match m with
  | Ok a => Ok (f a)
  | Raise e => Raise e
  end.

(** ** Cells *)

Inductive value :=
| VFloat (f : float)      (* float64; [nan] marks a missing number *)
| VInt (z : Z)            (* int64 *)
| VStr (s : string)       (* str in an object column *)
| VBool (b : bool)
| VTime (t : Z)           (* datetime64[ns]: nanoseconds since the epoch *)
| VDelta (d : Z)          (* timedelta64[ns] *)
| VNA.                    (* None / NaT *)

(** [pd.isna] on one cell. *)
Definition isna (v : value) : bool :=
  match v with
  | VFloat f => PrimFloat.is_nan f
  | VNA => true
  | _ => false
  end.

(** int64 -> float64, round to nearest (exact below 2^53). *)
Definition float_of_Z (z : Z) : float :=
  if z <? 0 then PrimFloat.opp (PrimFloat.of_uint63 (Uint63.of_Z (- z)))
  else PrimFloat.of_uint63 (Uint63.of_Z z).

(** int64 arithmetic wraps around silently in numpy. *)
Definition wrap64 (z : Z) : Z := (z + 2 ^ 63) mod 2 ^ 64 - 2 ^ 63.

(** The numeric dtypes.  Operands of any other kind are rendered as
    [TypeError]: the object-dtype arithmetic of pandas (string
    concatenation and the like) is not followed. *)
Definition to_float (v : value) : result float :=
  match v with
  | VFloat f => Ok f
  | VInt z => Ok (float_of_Z z)
  | _ => Raise TypeError
  end.

(** [a + b] *)
Definition v_add (a b : value) : result value :=
  match a, b with
  | VInt x, VInt y => Ok (VInt (wrap64 (x + y)))
  | _, _ => x ← to_float a; y ← to_float b; Ok (VFloat (x + y)%float)
  end.

(** [a / b], true division: always float64; a zero divisor gives
    [infinity] or [nan], it does not raise. *)
Definition v_div (a b : value) : result value :=
  x ← to_float a; y ← to_float b; Ok (VFloat (x / y)%float).

(** [a > 0] *)
Definition v_gt0 (a : value) : result bool :=
  match a with
  | VFloat f => Ok (PrimFloat.ltb 0%float f)
  | VInt z => Ok (0 <? z)
  | _ => Raise TypeError
  end.

(** [a - b] on timestamps; NaT propagates. *)
Definition v_sub_time (a b : value) : result value :=
  match a, b with
  | VTime x, VTime y => Ok (VDelta (x - y))
  | VTime _, VNA | VNA, VTime _ | VNA, VNA => Ok VNA
  | _, _ => Raise TypeError
  end.

Definition NS_PER_DAY : Z := 86400 * 10 ^ 9.

(** [Timedelta.days]: the floor of the difference in days. *)
Definition delta_days (d : Z) : Z := d `div` NS_PER_DAY.

(** ** Series: the cells of one column, in row order *)

Definition Series := list value.

Definition series_add (s1 s2 : Series) : result Series :=
  mapM (fun p => v_add p.1 p.2) (zip s1 s2).

Definition series_div (s1 s2 : Series) : result Series :=
  mapM (fun p => v_div p.1 p.2) (zip s1 s2).

Definition series_div_scalar (s : Series) (x : float) : result Series :=
  mapM (fun v => v_div v (VFloat x)) s.

Definition series_gt0 (s : Series) : result (list bool) := mapM v_gt0 s.

Definition series_sub_time (s1 s2 : Series) : result Series :=
  mapM (fun p => v_sub_time p.1 p.2) (zip s1 s2).

Definition mask_and (m1 m2 : list bool) : list bool := zip_with andb m1 m2.

(** [s.dt.days]: int64 when no cell is NaT, float64 with [nan] for NaT
    otherwise; [AttributeError] when the series is not a timedelta one. *)
Definition days_int (v : value) : result value :=
  match v with
  | VDelta d => Ok (VInt (delta_days d))
  | _ => Raise AttributeError
  end.

Definition days_float (v : value) : result value :=
  match v with
  | VDelta d => Ok (VFloat (float_of_Z (delta_days d)))
  | VNA => Ok (VFloat nan)
  | _ => Raise AttributeError
  end.

Definition is_NA (v : value) : bool :=
  match v with VNA => true | _ => false end.

Definition dt_days (s : Series) : result Series :=
  if existsb is_NA s then mapM days_float s else mapM days_int s.

(** ** Data frames *)

Record Row := mkRow { label : Z; cells : gmap string value }.

Record DataFrame := mkDF { columns : list string; rows : list Row }.

(** [pd.DataFrame()] *)
Definition DataFrame_new : DataFrame := mkDF [] [].

(** A cell a row does not hold reads as missing (the fill of an outer
    join). *)
Definition cell (c : string) (r : Row) : value :=
  default (VFloat nan) (cells r !! c).

Definition set_cell (c : string) (v : value) (r : Row) : Row :=
  mkRow (label r) (<[c := v]> (cells r)).

Definition has_column (c : string) (df : DataFrame) : bool :=
  bool_decide (c ∈ columns df).

Definition add_column (c : string) (cols : list string) : list string :=
  if bool_decide (c ∈ cols) then cols else cols ++ [c].

(** [df[c]] *)
Definition getitem (df : DataFrame) (c : string) : result Series :=
  if has_column c df then Ok (cell c <$> rows df) else Raise (KeyError c).

(** [df[c] = s] for a series on the frame's own index. *)
Definition setitem (df : DataFrame) (c : string) (s : Series) : result DataFrame :=
  if bool_decide (length s = length (rows df)) then
    Ok (mkDF (add_column c (columns df))
             (zip_with (fun r v => set_cell c v r) (rows df) s))
  else Raise ValueError.

(** [df[c] = v] for a scalar: broadcast to every row. *)
Definition setitem_scalar (df : DataFrame) (c : string) (v : value) : DataFrame :=
  mkDF (add_column c (columns df)) (set_cell c v <$> rows df).

(** [df[mask]] for a boolean series: the rows whose flag is set, labels
    and order kept. *)
Definition getitem_mask (df : DataFrame) (mask : list bool) : DataFrame :=
  mkDF (columns df) ((filter (fun p => p.2 = true) (zip (rows df) mask)).*1).

Definition project (cols : list string) (r : Row) : Row :=
  mkRow (label r) (list_to_map ((fun c => (c, cell c r)) <$> cols)).

(** [df[cols].copy()]: [KeyError] on the first absent column. *)
Definition select (df : DataFrame) (cols : list string) : result DataFrame :=
  match filter (fun c => c ∉ columns df) cols with
  | [] => Ok (mkDF cols (project cols <$> rows df))
  | c :: _ => Raise (KeyError c)
  end.

Definition complete (cols : list string) (r : Row) : bool :=
  forallb (fun c => negb (isna (cell c r))) cols.

(** [df.dropna()] *)
Definition dropna (df : DataFrame) : DataFrame :=
  mkDF (columns df) (filter (fun r => complete (columns df) r = true) (rows df)).

(** [df.empty] *)
Definition empty (df : DataFrame) : bool :=
  match columns df, rows df with
  | [], _ | _, [] => true
  | _, _ => false
  end.

Definition union_columns (acc cols : list string) : list string :=
  foldl (fun a c => add_column c a) acc cols.

Definition relabel (rs : list Row) : list Row :=
  imap (fun i r => mkRow (Z.of_nat i) (cells r)) rs.

(** [pd.concat(dfs, ignore_index=b)]: the rows of the frames one after
    the other, over the columns in order of first appearance. *)
Definition concat (dfs : list DataFrame) (ignore_index : bool) : result DataFrame :=
  match dfs with
  | [] => Raise ValueError
  | _ =>
      let rs := mjoin (rows <$> dfs) in
      Ok (mkDF (foldl union_columns [] (columns <$> dfs))
               (if ignore_index then relabel rs else rs))
  end.

(** ** The script's configuration *)

Definition TICKERS : list string :=
  ["AAPL"; "MSFT"; "NVDA"; "TSLA"; "GOOGL"; "AMZN"].

Definition RISK_FREE_RATE : float := 0.05%float.

Definition OUTPUT_CSV : string := "options_dataset.csv".

(** ** The world of the script: clock, console, files *)

(** A CSV file is kept as its lines; the text of a number is not
    modelled. *)
Inductive csv_line :=
| CsvHeader (names : list string)
| CsvRecord (fields : list value).

Record State := mkState {
  ticks : nat;                            (* readings of the clock so far *)
  stdout : list string;                   (* lines printed *)
  fs : gmap string (list csv_line)        (* the files that exist *)
}.

Definition IO (A : Type) : Type := State -> result A * State.

#[global] Instance IO_ret : MRet IO := fun A a σ => (Ok a, σ).
#[global] Instance IO_bind : MBind IO := fun A B f m σ =>
  match m σ with
  | (Ok a, σ') => f a σ'
  | (Raise e, σ') => (Raise e, σ')
  end.

Definition lift {A} (r : result A) : IO A := fun σ => (r, σ).

Definition print (line : string) : IO unit := fun σ =>
  (Ok (), mkState (ticks σ) (stdout σ ++ [line]) (fs σ)).

(** [try: body / except: handler]: [handler e] is [None] when no
    [except] clause matches [e], which then propagates. *)
Definition try_except {A} (body : IO A) (handler : exn -> option (IO A)) : IO A :=
  fun σ =>
    match body σ with
    | (Ok a, σ') => (Ok a, σ')
    | (Raise e, σ') =>
        match handler e with
        | Some h => h σ'
        | None => (Raise e, σ')
        end
    end.

(** [os.path.exists(path)] *)
Definition os_path_exists (path : string) : IO bool := fun σ =>
  (Ok (bool_decide (is_Some (fs σ !! path))), σ).

Inductive file_mode := ModeW | ModeA.

Definition csv_records (df : DataFrame) : list csv_line :=
  (fun r => CsvRecord ((fun c => cell c r) <$> columns df)) <$> rows df.

(** [df.to_csv(path, mode=m, header=h, index=False)] *)
Definition to_csv (df : DataFrame) (path : string) (m : file_mode) (header : bool)
  : IO unit := fun σ =>
  let old := match m with
             | ModeW => []
             | ModeA => default [] (fs σ !! path)
             end in
  let new := (if header then [CsvHeader (columns df)] else []) ++ csv_records df in
  (Ok (), mkState (ticks σ) (stdout σ) (<[path := old ++ new]> (fs σ))).

(** ** The quote source *)

(** What the script uses of a [yf.Ticker] object. *)
Record Ticker := mkTicker {
  history_1d : result DataFrame;                          (* history(period='1d') *)
  options : result (list string);                         (* expiration dates *)
  option_chain : string -> result (DataFrame * DataFrame) (* calls, puts *)
}.

(** [s.iloc[0]] *)
Definition iloc0 (s : Series) : result value :=
  match s with
  | [] => Raise IndexError
  | v :: _ => Ok v
  end.

(** ** An ISO date parser, to run the pipeline on concrete data *)

Definition digit (a : ascii) : option Z :=
  let n := Z.of_nat (nat_of_ascii a) in
  if bool_decide (48 <= n <= 57) then Some (n - 48) else None.

Fixpoint number (acc : Z) (l : list ascii) : option Z :=
  match l with
  | [] => Some acc
  | a :: l' => d ← digit a; number (10 * acc + d) l'
  end.

(** Days from 1970-01-01 to the given civil date. *)
Definition days_from_civil (y m d : Z) : Z :=
  let y' := if m <=? 2 then y - 1 else y in
  let era := y' `div` 400 in
  let yoe := y' - era * 400 in
  let mp := (m + 9) `mod` 12 in
  let doy := (153 * mp + 2) `div` 5 + d - 1 in
  let doe := yoe * 365 + yoe `div` 4 - yoe `div` 100 + doy in
  era * 146097 + doe - 719468.

(** ['YYYY-MM-DD'] to nanoseconds since the epoch, at midnight. *)
Definition parse_iso_date (s : string) : option Z :=
  match list_ascii_of_string s with
  | [y1; y2; y3; y4; "-"%char; m1; m2; "-"%char; d1; d2] =>
      y ← number 0 [y1; y2; y3; y4];
      m ← number 0 [m1; m2];
      d ← number 0 [d1; d2];
      if bool_decide (1 <= m <= 12 ∧ 1 <= d <= 31)
      then Some (days_from_civil y m d * NS_PER_DAY) else None
  | _ => None
  end.

(** ** Sample data *)

(** One row of a raw frame, as the Fetcher builds it. *)
Definition quote (l : Z) (strike bid ask iv : float) (kind : string)
    (exp ts : value) (under : float) : Row :=
  mkRow l (list_to_map
    [("strike", VFloat strike); ("bid", VFloat bid); ("ask", VFloat ask);
     ("impliedVolatility", VFloat iv); ("optionType", VStr kind);
     ("expirationDate", exp); ("ticker", VStr "AAPL"); ("timestamp", ts);
     ("underlyingPrice", VFloat under)]).

Definition raw_columns : list string :=
  ["strike"; "bid"; "ask"; "impliedVolatility"; "optionType";
   "expirationDate"; "ticker"; "timestamp"; "underlyingPrice"].

(** 2025-12-17 00:00:00, in nanoseconds. *)
Definition fetch_day : Z := 1765929600000000000.

(** Three quotes fetched on 2025-12-17 for the expiration of 2026-01-16:
    a liquid call, a call without a bid, a liquid put. *)
Definition sample_raw : DataFrame :=
  mkDF raw_columns
    [quote 0 100 1 1.2 0.3 "call" (VStr "2026-01-16") (VTime fetch_day) 105;
     quote 1 110 0 1.5 0.3 "call" (VStr "2026-01-16") (VTime fetch_day) 105;
     quote 2 100 2 2.2 0.4 "put" (VStr "2026-01-16") (VTime fetch_day) 105].

(** A quote whose expiration is one nanosecond before its timestamp. *)
Definition expired_raw : DataFrame :=
  mkDF raw_columns [quote 0 100 1 1.2 0.3 "call" (VTime 0) (VTime 1) 105].

(** A quote with a zero strike. *)
Definition zero_strike_raw : DataFrame :=
  mkDF raw_columns [quote 0 0 1 1.2 0.3 "call" (VTime 86400000000000) (VTime 0) 105].

(** 2026-01-16 00:00:00, in nanoseconds. *)
Definition expiration_day : Z := 1768521600000000000.

(** A row of the caller's frame after the call. *)
Definition augmented_quote (l : Z) (strike bid ask iv : float) (kind : string)
    (exp ts : value) (under : float) (mid days tte mny : value) : Row :=
  mkRow l (list_to_map
    [("strike", VFloat strike); ("bid", VFloat bid); ("ask", VFloat ask);
     ("impliedVolatility", VFloat iv); ("optionType", VStr kind);
     ("expirationDate", exp); ("ticker", VStr "AAPL"); ("timestamp", ts);
     ("underlyingPrice", VFloat under); ("marketPrice", mid);
     ("daysToExpiration", days); ("timeToExpiration", tte);
     ("moneyness", mny); ("riskFreeRate", VFloat RISK_FREE_RATE)]).

(** A persisted record. *)
Definition feature (l : Z) (under strike : float) (kind : string)
    (mny tte iv mid : float) : Row :=
  mkRow l (list_to_map
    [("underlyingPrice", VFloat under); ("strike", VFloat strike);
     ("optionType", VStr kind); ("moneyness", VFloat mny);
     ("timeToExpiration", VFloat tte); ("impliedVolatility", VFloat iv);
     ("riskFreeRate", VFloat RISK_FREE_RATE); ("marketPrice", VFloat mid)]).

Definition sample_augmented : DataFrame :=
  mkDF (raw_columns ++ ["marketPrice"; "daysToExpiration"; "timeToExpiration";
                        "moneyness"; "riskFreeRate"])
    [augmented_quote 0 100 1 1.2 0.3 "call" (VTime expiration_day)
       (VTime fetch_day) 105
       (VFloat 1.1) (VInt 30) (VFloat (30 / 365)) (VFloat 1.05);
     augmented_quote 1 110 0 1.5 0.3 "call" (VTime expiration_day)
       (VTime fetch_day) 105
       (VFloat 0.75) (VInt 30) (VFloat (30 / 365)) (VFloat (105 / 110));
     augmented_quote 2 100 2 2.2 0.4 "put" (VTime expiration_day)
       (VTime fetch_day) 105
       (VFloat 2.1) (VInt 30) (VFloat (30 / 365)) (VFloat 1.05)].

Definition sample_features : DataFrame :=
  mkDF ["underlyingPrice"; "strike"; "optionType"; "moneyness";
        "timeToExpiration"; "impliedVolatility"; "riskFreeRate"; "marketPrice"]
    [feature 0 105 100 "call" 1.05 (30 / 365) 0.3 1.1;
     feature 2 105 100 "put" 1.05 (30 / 365) 0.4 2.1].

(** The quote source behind the sample frame: one listed ticker with one
    expiration, every other ticker without a price. *)
Definition chain_columns : list string :=
  ["strike"; "bid"; "ask"; "impliedVolatility"].

Definition chain_row (l : Z) (strike bid ask iv : float) : Row :=
  mkRow l (list_to_map
    [("strike", VFloat strike); ("bid", VFloat bid); ("ask", VFloat ask);
     ("impliedVolatility", VFloat iv)]).

Definition sample_calls : DataFrame :=
  mkDF chain_columns [chain_row 0 100 1 1.2 0.3; chain_row 1 110 0 1.5 0.3].

Definition sample_puts : DataFrame :=
  mkDF chain_columns [chain_row 0 100 2 2.2 0.4].

Definition sample_history : DataFrame :=
  mkDF ["Close"] [mkRow 0 {["Close" := VFloat 105]}].

Definition listed_ticker : Ticker :=
  mkTicker (Ok sample_history) (Ok ["2026-01-16"])
           (fun _ => Ok (sample_calls, sample_puts)).

(** No row of history: the price lookup raises [IndexError]. *)
Definition delisted_ticker : Ticker :=
  mkTicker (Ok (mkDF ["Close"] [])) (Ok [])
           (fun _ => Raise (SourceError "no option chain")).

(** A price and one expiration, whose chain holds no contract. *)
Definition quiet_ticker : Ticker :=
  mkTicker (Ok sample_history) (Ok ["2026-01-16"])
           (fun _ => Ok (mkDF chain_columns [], mkDF chain_columns [])).

Definition sample_source (symbol : string) : Ticker :=
  if bool_decide (symbol = "AAPL") then listed_ticker else delisted_ticker.

Definition sample_clock (n : nat) : Z := fetch_day.

(** The state the script starts in: nothing printed, no file. *)
Definition boot : State := mkState 0 [] ∅.

(** A ticker whose price history has no 'Close' column. *)
Definition odd_ticker : Ticker :=
  mkTicker (Ok (mkDF ["Open"] [mkRow 0 {["Open" := VFloat 105]}])) (Ok [])
           (fun _ => Raise (SourceError "no option chain")).

Section Pipeline.

Set Default Proof Using "Type".

(** The string parser behind [pd.to_datetime]; [None] is a string it
    rejects. *)
Variable parse_datetime : string -> option Z.
(** [yf.Ticker(symbol)] *)
Variable yf_Ticker : string -> Ticker.
(** The n-th reading of [datetime.now()]. *)
Variable clock : nat -> Z.

(** [pd.to_datetime] on one cell; float epochs are not followed. *)
Definition v_to_datetime (v : value) : result value :=
  match v with
  | VStr s =>
      match parse_datetime s with
      | Some t => Ok (VTime t)
      | None => Raise ValueError
      end
  | VTime t => Ok (VTime t)
  | VInt z => Ok (VTime z)
  | VNA => Ok VNA
  | VFloat f => if PrimFloat.is_nan f then Ok VNA else Raise TypeError
  | _ => Raise TypeError
  end.

Definition to_datetime (s : Series) : result Series := mapM v_to_datetime s.

Definition final_cols : list string :=
  ["underlyingPrice"; "strike"; "optionType"; "moneyness";
   "timeToExpiration"; "impliedVolatility"; "riskFreeRate"; "marketPrice"].

(** [process_and_clean_data(df)].  The assignments [df[c] = ...] act on
    the caller's frame, so the function returns two frames: the
    caller's frame as the call leaves it, and [processed_df].  Nothing
    in the script catches an exception of the processor, so the frame
    is reported on return only. *)
Definition process_and_clean_data (df : DataFrame)
  : result (DataFrame * DataFrame) :=
  (* df['marketPrice'] = (df['bid'] + df['ask']) / 2.0 *)
  bid ← getitem df "bid";
  ask ← getitem df "ask";
  sum ← series_add bid ask;
  mid ← series_div_scalar sum 2.0%float;
  df ← setitem df "marketPrice" mid;
  (* df['expirationDate'] = pd.to_datetime(df['expirationDate']) *)
  exp ← getitem df "expirationDate";
  exp ← to_datetime exp;
  df ← setitem df "expirationDate" exp;
  (* df['daysToExpiration'] = (df['expirationDate'] - df['timestamp']).dt.days *)
  exp ← getitem df "expirationDate";
  ts ← getitem df "timestamp";
  delta ← series_sub_time exp ts;
  days ← dt_days delta;
  df ← setitem df "daysToExpiration" days;
  (* df['timeToExpiration'] = df['daysToExpiration'] / 365.0 *)
  days ← getitem df "daysToExpiration";
  tte ← series_div_scalar days 365.0%float;
  df ← setitem df "timeToExpiration" tte;
  (* df['moneyness'] = df['underlyingPrice'] / df['strike'] *)
  under ← getitem df "underlyingPrice";
  strike ← getitem df "strike";
  mny ← series_div under strike;
  df ← setitem df "moneyness" mny;
  (* df['riskFreeRate'] = RISK_FREE_RATE *)
  let df := setitem_scalar df "riskFreeRate" (VFloat RISK_FREE_RATE) in
  (* df = df[(df['bid'] > 0) & (df['ask'] > 0)] *)
  bid ← getitem df "bid";
  bid_pos ← series_gt0 bid;
  ask ← getitem df "ask";
  ask_pos ← series_gt0 ask;
  let liquid := getitem_mask df (mask_and bid_pos ask_pos) in
  (* processed_df = df[final_cols].copy(); processed_df.dropna(inplace=True) *)
  processed_df ← select liquid final_cols;
  Ok (df, dropna processed_df).

(** [datetime.now()] *)
Definition datetime_now : IO value := fun σ =>
  (Ok (VTime (clock (ticks σ))), mkState (S (ticks σ)) (stdout σ) (fs σ)).

(** The body of the loop over [stock.options]. *)
Definition fetch_expiration (stock : Ticker) (ticker_symbol : string)
    (current_stock_price : value) (exp_date : string) : IO DataFrame :=
  options_chain ← lift (option_chain stock exp_date);
  let calls := setitem_scalar options_chain.1 "optionType" (VStr "call") in
  let puts := setitem_scalar options_chain.2 "optionType" (VStr "put") in
  options_df ← lift (concat [calls; puts] false);
  let options_df := setitem_scalar options_df "expirationDate" (VStr exp_date) in
  let options_df := setitem_scalar options_df "ticker" (VStr ticker_symbol) in
  now ← datetime_now;
  let options_df := setitem_scalar options_df "timestamp" now in
  let options_df := setitem_scalar options_df "underlyingPrice" current_stock_price in
  mret options_df.

Fixpoint fetch_loop (stock : Ticker) (ticker_symbol : string)
    (current_stock_price : value) (exp_dates : list string)
    (all_options_data : list DataFrame) : IO (list DataFrame) :=
  match exp_dates with
  | [] => mret all_options_data
  | exp_date :: rest =>
      options_df ← fetch_expiration stock ticker_symbol current_stock_price exp_date;
      fetch_loop stock ticker_symbol current_stock_price rest
                 (all_options_data ++ [options_df])
  end.

Definition skip_message (ticker_symbol : string) : string :=
  "Could not fetch current price for " +:+ ticker_symbol +:+ ". Skipping.".

(** [stock.history(period='1d')['Close'].iloc[0]] *)
Definition current_price (stock : Ticker) : result value :=
  h ← history_1d stock; close ← getitem h "Close"; iloc0 close.

(** [fetch_options_data(ticker_symbol)] *)
Definition fetch_options_data (ticker_symbol : string) : IO DataFrame :=
  let stock := yf_Ticker ticker_symbol in
  price ← try_except (lift (Some <$> current_price stock))
            (fun e => match e with
                      | IndexError =>
                          Some (print (skip_message ticker_symbol);; mret None)
                      | _ => None
                      end);
  match price with
  | None => mret DataFrame_new
  | Some current_stock_price =>
      exp_dates ← lift (options stock);
      all_options_data ←
        fetch_loop stock ticker_symbol current_stock_price exp_dates [];
      match all_options_data with
      | [] => mret DataFrame_new
      | _ => lift (concat all_options_data true)
      end
  end.

Fixpoint main_loop (tickers : list string) (all_ticker_data : list DataFrame)
  : IO (list DataFrame) :=
  match tickers with
  | [] => mret all_ticker_data
  | ticker :: rest =>
      print ("Fetching data for " +:+ ticker +:+ "...");;
      data ← fetch_options_data ticker;
      main_loop rest
        (if empty data then all_ticker_data else all_ticker_data ++ [data])
  end.

(** The persistence step of the script. *)
Definition persist (model_ready_df : DataFrame) : IO unit :=
  let n := pretty (length (rows model_ready_df)) in
  there ← os_path_exists OUTPUT_CSV;
  if (there : bool) then
    to_csv model_ready_df OUTPUT_CSV ModeA false;;
    print ("Appended " +:+ n +:+ " new records to " +:+ OUTPUT_CSV)
  else
    to_csv model_ready_df OUTPUT_CSV ModeW true;;
    print ("Created " +:+ OUTPUT_CSV +:+ " and saved " +:+ n +:+ " records.").

(** The script after its loop: [if not all_ticker_data: ... else: ...]. *)
Definition report_or_persist (all_ticker_data : list DataFrame) : IO unit :=
  match all_ticker_data with
  | [] => print "No data collected. Exiting."
  | _ =>
      raw_data_df ← lift (concat all_ticker_data true);
      processed ← lift (process_and_clean_data raw_data_df);
      persist processed.2
  end.

(** The script under [if __name__ == "__main__"]. *)
Definition main : IO unit :=
  print "Starting options data collection...";;
  all_ticker_data ← main_loop TICKERS [];
  report_or_persist all_ticker_data.

(** ** The processor, row by row

    What the column program of [process_and_clean_data] does to one
    row; the lemmas below prove that the two agree. *)

(** [(bid + ask) / 2.0] *)
Definition mid_price (r : Row) : result value :=
  sum ← v_add (cell "bid" r) (cell "ask" r); v_div sum (VFloat 2).

(** [.dt.days] on one cell; [with_nat] says whether the frame holds a
    NaT difference, which makes the whole column float64. *)
Definition days_cell (with_nat : bool) : value -> result value :=
  if with_nat then days_float else days_int.

Definition days_to_expiration (with_nat : bool) (r : Row) : result value :=
  exp ← v_to_datetime (cell "expirationDate" r);
  delta ← v_sub_time exp (cell "timestamp" r);
  days_cell with_nat delta.

Definition augment_row (with_nat : bool) (r : Row) : result Row :=
  mid ← mid_price r;
  exp ← v_to_datetime (cell "expirationDate" r);
  days ← days_to_expiration with_nat r;
  tte ← v_div days (VFloat 365);
  mny ← v_div (cell "underlyingPrice" r) (cell "strike" r);
  Ok (set_cell "riskFreeRate" (VFloat RISK_FREE_RATE)
     (set_cell "moneyness" mny
     (set_cell "timeToExpiration" tte
     (set_cell "daysToExpiration" days
     (set_cell "expirationDate" exp
     (set_cell "marketPrice" mid r)))))).

(** [bid > 0] and [ask > 0] *)
Definition liquid (r : Row) : bool :=
  match v_gt0 (cell "bid" r), v_gt0 (cell "ask" r) with
  | Ok true, Ok true => true
  | _, _ => false
  end.

(** The persisted record of a row. *)
Definition feature_row (with_nat : bool) (r : Row) : result Row :=
  project final_cols <$> augment_row with_nat r.

(** A row survives when it is liquid and its record has no missing
    field. *)
Definition survives (with_nat : bool) (r : Row) : bool :=
  liquid r &&
  match feature_row with_nat r with
  | Ok o => complete final_cols o
  | Raise _ => false
  end.

(** Some row has no expiration date or no timestamp. *)
Definition some_nat (rs : list Row) : bool :=
  existsb (fun r => match v_to_datetime (cell "expirationDate" r) ≫=
                          (fun e => v_sub_time e (cell "timestamp" r)) with
                    | Ok VNA => true
                    | _ => false
                    end) rs.

(** The columns of the caller's frame after the call. *)
Definition augmented_columns (cols : list string) : list string :=
  add_column "riskFreeRate" (add_column "moneyness"
    (add_column "timeToExpiration" (add_column "daysToExpiration"
      (add_column "expirationDate" (add_column "marketPrice" cols))))).

(** ** The fetcher, row by row *)

(** What the loop body writes on one row of a chain. *)
Definition stamp (ticker_symbol exp_date : string) (now price : value)
    (kind : string) (r : Row) : Row :=
  set_cell "underlyingPrice" price
    (set_cell "timestamp" now
       (set_cell "ticker" (VStr ticker_symbol)
          (set_cell "expirationDate" (VStr exp_date)
             (set_cell "optionType" (VStr kind) r)))).

(** The rows of one expiration: the calls, then the puts. *)
Definition expiration_rows (ticker_symbol : string) (price : value)
    (exp_date : string) (now : value) (chain : DataFrame * DataFrame)
  : list Row :=
  (stamp ticker_symbol exp_date now price "call" <$> rows chain.1) ++
  (stamp ticker_symbol exp_date now price "put" <$> rows chain.2).

(** The rows of every expiration, the n-th one read at the n-th tick. *)
Fixpoint ticker_rows (ticker_symbol : string) (price : value) (tick : nat)
    (exp_dates : list string) (chains : list (DataFrame * DataFrame))
  : list Row :=
  match exp_dates, chains with
  | exp_date :: exp_dates', chain :: chains' =>
      expiration_rows ticker_symbol price exp_date (VTime (clock tick)) chain ++
      ticker_rows ticker_symbol price (S tick) exp_dates' chains'
  | _, _ => []
  end.

(** The state after [n] readings of the clock. *)
Definition after_ticks (n : nat) (σ : State) : State :=
  mkState (ticks σ + n) (stdout σ) (fs σ).

(** The state after a line is printed. *)
Definition after_print (line : string) (σ : State) : State :=
  mkState (ticks σ) (stdout σ ++ [line]) (fs σ).

(** A computation that leaves the files alone, whatever it returns. *)
Definition keeps_files {A} (m : IO A) : Prop := ∀ σ, fs (m σ).2 = fs σ.

(** The columns the processor reads. *)
Definition required_columns : list string :=
  ["bid"; "ask"; "expirationDate"; "timestamp"; "underlyingPrice"; "strike";
   "optionType"; "impliedVolatility"].
(** Drops the section's variables from a proof that does not need them. *)
Ltac generic := try clear parse_datetime; try clear yf_Ticker; try clear clock.

(** ** The result monad *)

Lemma bind_Ok {A B} (m : result A) (k : A -> result B) (b : B) :
  m ≫= k = Ok b -> ∃ a, m = Ok a ∧ k a = Ok b.
Proof. destruct m as [a|e]; [eauto | discriminate]. Qed.

Lemma fmap_Ok {A B} (f : A -> B) (m : result A) (b : B) :
  f <$> m = Ok b -> ∃ a, m = Ok a ∧ b = f a.
Proof. destruct m as [a|e]; simpl; [|discriminate]. intros [= <-]. eauto. Qed.

(** Splits a successful sequence of binds into its steps. *)
Ltac inv_ok :=
  repeat match goal with
    | H : Ok _ = Ok _ |- _ => injection H as H; try subst
    | H : Raise _ = Ok _ |- _ => discriminate H
    | H : mret _ = Ok _ |- _ => unfold mret, result_ret in H
    | H : _ ≫= _ = Ok _ |- _ =>
        let a := fresh "a" in
        let Ha := fresh "Ha" in
        apply bind_Ok in H; destruct H as (a & Ha & H)
    | H : _ <$> _ = Ok _ |- _ =>
        let a := fresh "a" in
        let Ha := fresh "Ha" in
        apply fmap_Ok in H; destruct H as (a & Ha & H)
    end.

Lemma mapM_Ok {A B} (f : A -> result B) (l : list A) (k : list B) :
  mapM f l = Ok k <-> Forall2 (fun x y => f x = Ok y) l k.
Proof.
  revert k. induction l as [|x l IH]; intros k; simpl.
  - split; [intros [= <-]; constructor | by inversion 1].
  - split.
    + intros H. inv_ok. constructor; [done | by apply IH].
    + inversion 1 as [|? y ? k' Hy Hk]; subst.
      apply IH in Hk. cbn. rewrite Hy. cbn. by rewrite Hk.
Qed.

Lemma mapM_length {A B} (f : A -> result B) (l : list A) (k : list B) :
  mapM f l = Ok k -> length k = length l.
Proof. rewrite mapM_Ok. intros H. symmetry. by eapply Forall2_length. Qed.

Lemma mapM_fmap {A B C} (f : B -> result C) (g : A -> B) (l : list A) :
  mapM f (g <$> l) = mapM (fun x => f (g x)) l.
Proof. induction l as [|x l IH]; [done|]. cbn. by rewrite IH. Qed.

Lemma mapM_zip_fmap {A B C D} (f : B * C -> result D) (g : A -> B) (h : A -> C)
    (l : list A) :
  mapM f (zip (g <$> l) (h <$> l)) = mapM (fun x => f (g x, h x)) l.
Proof. induction l as [|x l IH]; [done|]. cbn. by rewrite IH. Qed.

(** Two passes over a column are one pass of the composed function. *)
Lemma mapM_compose {A B C} (f : A -> result B) (g : B -> result C)
    (l : list A) (k : list B) (m : list C) :
  mapM f l = Ok k -> mapM g k = Ok m -> mapM (fun x => f x ≫= g) l = Ok m.
Proof.
  rewrite !mapM_Ok. intros H. revert m.
  induction H as [|x y l k Hxy _ IH]; intros m; inversion 1; subst;
    constructor; auto.
  by rewrite Hxy.
Qed.

Lemma mapM_impl {A B} (f g : A -> result B) (l : list A) (k : list B) :
  (∀ x y, f x = Ok y -> g x = Ok y) -> mapM f l = Ok k -> mapM g l = Ok k.
Proof. rewrite !mapM_Ok. intros Hfg H. eapply Forall2_impl; [exact H | exact Hfg]. Qed.

(** Filtering the results is filtering the inputs. *)
Lemma mapM_filter {A B} (f : A -> result B) (P : B -> bool) (Q : A -> bool)
    (l : list A) (k : list B) :
  (∀ x y, f x = Ok y -> Q x = P y) ->
  mapM f l = Ok k ->
  mapM f (filter (fun x => Q x = true) l) = Ok (filter (fun y => P y = true) k).
Proof.
  intros HQ. rewrite !mapM_Ok. induction 1 as [|x y l k Hxy _ IH]; [constructor|].
  rewrite !filter_cons, (HQ x y Hxy).
  destruct (decide (P y = true)); [constructor|]; done.
Qed.

Lemma mapM_fmap_Ok {A B C} (f : A -> result B) (g : B -> C)
    (l : list A) (k : list B) :
  mapM f l = Ok k -> mapM (fun x => g <$> f x) l = Ok (g <$> k).
Proof.
  rewrite !mapM_Ok. induction 1 as [|x y l k Hxy _ IH]; [constructor|].
  constructor; [|done]. by rewrite Hxy.
Qed.

Lemma existsb_mapM {A B} (f : A -> result B) (P : B -> bool) (Q : A -> bool)
    (l : list A) (k : list B) :
  (∀ x y, f x = Ok y -> P y = Q x) ->
  mapM f l = Ok k -> existsb P k = existsb Q l.
Proof.
  intros HPQ. rewrite mapM_Ok. induction 1 as [|x y l k Hxy _ IH]; [done|].
  simpl. by rewrite (HPQ x y Hxy), IH.
Qed.

(** ** Frames *)

Lemma cell_set_cell_eq (c : string) (v : value) (r : Row) :
  cell c (set_cell c v r) = v.
Proof. unfold cell, set_cell. simpl. by rewrite lookup_insert_eq. Qed.

Lemma cell_set_cell_ne (c c' : string) (v : value) (r : Row) :
  c' ≠ c -> cell c (set_cell c' v r) = cell c r.
Proof. intros. unfold cell, set_cell. simpl. by rewrite lookup_insert_ne. Qed.

Lemma getitem_Ok (df : DataFrame) (c : string) (s : Series) :
  getitem df c = Ok s -> c ∈ columns df ∧ s = cell c <$> rows df.
Proof.
  unfold getitem, has_column. case_bool_decide; [|discriminate].
  by intros [= <-].
Qed.

Lemma elem_of_add_column (c c' : string) (cols : list string) :
  c ∈ add_column c' cols <-> c = c' ∨ c ∈ cols.
Proof. generic.
  unfold add_column. case_bool_decide.
  - split; [auto | intros [->|]; done].
  - rewrite elem_of_app, list_elem_of_singleton. tauto.
Qed.

Lemma zip_with_set_cell (c : string) (f : Row -> result value)
    (l : list Row) (s : Series) :
  Forall2 (fun r v => f r = Ok v) l s ->
  Forall2 (fun r r' => (v ← f r; Ok (set_cell c v r)) = Ok r')
          l (zip_with (fun r v => set_cell c v r) l s).
Proof.
  induction 1 as [|r v l k Hrv _ IH]; simpl; [constructor|].
  constructor; [|done]. by rewrite Hrv.
Qed.

(** Assigning a column computed row by row rewrites every row. *)
Lemma setitem_rowwise (df df1 : DataFrame) (c : string)
    (f : Row -> result value) (s : Series) :
  mapM f (rows df) = Ok s ->
  setitem df c s = Ok df1 ->
  columns df1 = add_column c (columns df) ∧
  mapM (fun r => v ← f r; Ok (set_cell c v r)) (rows df) = Ok (rows df1).
Proof.
  intros Hs. unfold setitem. case_bool_decide; [|discriminate].
  intros [= <-]. split; [done|]. simpl.
  apply mapM_Ok in Hs. by apply mapM_Ok, zip_with_set_cell.
Qed.

Lemma mask_filter (rs : list Row) (mb ma : list bool) :
  mapM v_gt0 (cell "bid" <$> rs) = Ok mb ->
  mapM v_gt0 (cell "ask" <$> rs) = Ok ma ->
  (filter (fun p => p.2 = true) (zip rs (mask_and mb ma))).*1
  = filter (fun r => liquid r = true) rs.
Proof.
  rewrite !mapM_fmap, !mapM_Ok. intros Hb. revert ma.
  induction Hb as [|r b l k Hrb _ IH]; intros ma Ha;
    inversion Ha as [|? a ? k' Hra Hk']; subst; [done|].
  assert (liquid r = b && a) as Hl.
  { unfold liquid. rewrite Hrb, Hra. by destruct b, a. }
  specialize (IH _ Hk'). unfold mask_and in *.
  cbn [zip_with]. rewrite !filter_cons. cbn [snd].
  destruct (decide (b && a = true)), (decide (liquid r = true));
    simpl; try congruence.
  f_equal. exact IH.
Qed.

(** ** The column program and the row view agree *)

Ltac step H x Hx :=
  apply bind_Ok in H; destruct H as (x & Hx & H); cbn beta zeta in H.

Ltac cells :=
  repeat (rewrite cell_set_cell_eq in * ||
          rewrite cell_set_cell_ne in * by done).

Ltac column H :=
  apply getitem_Ok in H; destruct H as [? ->].

Lemma process_augments (df df' out : DataFrame) :
  process_and_clean_data df = Ok (df', out) ->
  columns df' = augmented_columns (columns df) ∧
  mapM (augment_row (some_nat (rows df))) (rows df) = Ok (rows df').
Proof.
  unfold process_and_clean_data. intros H.
  step H bids Hbid. step H asks Hask. step H sums Hsum. step H mids Hmid.
  step H df1 Hdf1.
  step H exps Hexp. step H exps' Hexp'. step H df2 Hdf2.
  step H exps2 Hexp2. step H tss Hts. step H delta Hdelta. step H days Hdays.
  step H df3 Hdf3.
  step H days' Hdays'. step H tte Htte. step H df4 Hdf4.
  step H under Hunder. step H strikes Hstrike. step H mny Hmny.
  step H df5 Hdf5.
  step H bids' Hbid'. step H bid_pos Hbid_pos.
  step H asks' Hask'. step H ask_pos Hask_pos.
  step H processed Hprocessed.
  injection H as <- _.
  (* marketPrice *)
  column Hbid. column Hask.
  unfold series_add in Hsum. rewrite mapM_zip_fmap in Hsum. cbn [fst snd] in Hsum.
  pose proof (mapM_compose _ _ _ _ _ Hsum Hmid) as Hmp.
  destruct (setitem_rowwise _ _ _ _ _ Hmp Hdf1) as [Hc1 Hr1].
  (* expirationDate *)
  column Hexp. unfold to_datetime in Hexp'. rewrite mapM_fmap in Hexp'.
  destruct (setitem_rowwise _ _ _ _ _ Hexp' Hdf2) as [Hc2 Hr2].
  (* daysToExpiration *)
  column Hexp2. column Hts.
  unfold series_sub_time in Hdelta. rewrite mapM_zip_fmap in Hdelta.
  cbn [fst snd] in Hdelta.
  unfold dt_days in Hdays.
  assert (mapM (days_cell (existsb is_NA delta)) delta = Ok days) as Hdays2.
  { unfold days_cell. by destruct (existsb is_NA delta). }
  pose proof (mapM_compose _ _ _ _ _ Hdelta Hdays2) as Hd.
  destruct (setitem_rowwise _ _ _ _ _ Hd Hdf3) as [Hc3 Hr3].
  (* timeToExpiration *)
  column Hdays'. unfold series_div_scalar in Htte. rewrite mapM_fmap in Htte.
  destruct (setitem_rowwise _ _ _ _ _ Htte Hdf4) as [Hc4 Hr4].
  (* moneyness *)
  column Hunder. column Hstrike.
  unfold series_div in Hmny. rewrite mapM_zip_fmap in Hmny. cbn [fst snd] in Hmny.
  destruct (setitem_rowwise _ _ _ _ _ Hmny Hdf5) as [Hc5 Hr5].
  split.
  { unfold augmented_columns. simpl. by rewrite Hc5, Hc4, Hc3, Hc2, Hc1. }
  (* the NaT flag, read off the input rows *)
  pose proof (mapM_compose _ _ _ _ _ Hr1 Hr2) as Hr12.
  assert (existsb is_NA delta = some_nat (rows df)) as Hflag.
  { unfold some_nat.
    refine (existsb_mapM _ _ _ _ _ _ (mapM_compose _ _ _ _ _ Hr12 Hdelta)).
    intros r y Hy. cbn beta in Hy. inv_ok. cells.
    rewrite Ha1. simpl. rewrite Hy. by destruct y. }
  rewrite Hflag in *. clear Hflag Hdays Hdays2 Hd.
  pose proof (mapM_compose _ _ _ _ _ Hr12 Hr3) as Hr123.
  pose proof (mapM_compose _ _ _ _ _ Hr123 Hr4) as Hr1234.
  pose proof (mapM_compose _ _ _ _ _ Hr1234 Hr5) as Hr12345.
  apply (mapM_fmap_Ok _ (set_cell "riskFreeRate" (VFloat RISK_FREE_RATE)))
    in Hr12345.
  simpl. revert Hr12345. apply mapM_impl.
  intros r r' Hr. cbn beta in Hr. inv_ok. cells.
  unfold augment_row, mid_price, days_to_expiration.
  rewrite Ha4; cbn [mbind result_bind]. rewrite Ha0; cbn [mbind result_bind].
  rewrite Ha5; cbn [mbind result_bind]. rewrite Ha; cbn [mbind result_bind].
  rewrite Ha3; cbn [mbind result_bind]. rewrite Ha2; cbn [mbind result_bind].
  by rewrite Ha1.
Qed.

Lemma select_Ok (df out : DataFrame) (cols : list string) :
  select df cols = Ok out -> out = mkDF cols (project cols <$> rows df).
Proof.
  unfold select. destruct (filter _ cols); [|discriminate]. by intros [= <-].
Qed.

Lemma augment_row_liquid (with_nat : bool) (r r' : Row) :
  augment_row with_nat r = Ok r' -> liquid r' = liquid r.
Proof.
  unfold augment_row. intros H. inv_ok. unfold liquid. by cells.
Qed.

Lemma process_output (df df' out : DataFrame) :
  process_and_clean_data df = Ok (df', out) ->
  columns out = final_cols ∧
  rows out = filter (fun o => complete final_cols o = true)
               (project final_cols <$> filter (fun r => liquid r = true) (rows df')).
Proof.
  unfold process_and_clean_data. intros H.
  step H bids Hbid. step H asks Hask. step H sums Hsum. step H mids Hmid.
  step H df1 Hdf1.
  step H exps Hexp. step H exps' Hexp'. step H df2 Hdf2.
  step H exps2 Hexp2. step H tss Hts. step H delta Hdelta. step H days Hdays.
  step H df3 Hdf3.
  step H days' Hdays'. step H tte Htte. step H df4 Hdf4.
  step H under Hunder. step H strikes Hstrike. step H mny Hmny.
  step H df5 Hdf5.
  step H bids' Hbid'. step H bid_pos Hbid_pos.
  step H asks' Hask'. step H ask_pos Hask_pos.
  step H processed Hprocessed.
  injection H as <- <-.
  column Hbid'. column Hask'.
  apply select_Ok in Hprocessed. subst processed.
  unfold dropna. cbn [columns rows getitem_mask].
  split; [done|].
  by rewrite (mask_filter _ _ _ Hbid_pos Hask_pos).
Qed.

(** The processor's output is the record of every surviving input row,
    in the order of the input. *)
Lemma process_rows (df df' out : DataFrame) :
  process_and_clean_data df = Ok (df', out) ->
  let with_nat := some_nat (rows df) in
  mapM (feature_row with_nat)
       (filter (fun r => survives with_nat r = true) (rows df))
  = Ok (rows out).
Proof.
  intros H with_nat.
  destruct (process_augments _ _ _ H) as [_ Haug].
  destruct (process_output _ _ _ H) as [_ ->].
  fold with_nat in Haug.
  pose proof (mapM_filter _ liquid liquid _ _
                (fun r r' Hr => eq_sym (augment_row_liquid _ r r' Hr)) Haug) as Hliq.
  apply (mapM_fmap_Ok _ (project final_cols)) in Hliq.
  apply (mapM_filter (feature_row with_nat) (complete final_cols)
           (fun r => match feature_row with_nat r with
                     | Ok o => complete final_cols o
                     | Raise _ => false
                     end)) in Hliq; [|by intros r o ->].
  rewrite <- Hliq. f_equal.
  rewrite list_filter_filter. apply list_filter_iff. intros r.
  unfold survives. rewrite andb_true_iff. tauto.
Qed.


(** Membership in a list written out. *)
Ltac listed :=
  first
    [ apply list_elem_of_In; simpl; tauto
    | match goal with
      | H : _ ∈ _ |- _ =>
          apply list_elem_of_In in H; simpl in H;
          apply list_elem_of_In; simpl; tauto
      end ].

(** ** What one augmented row holds *)

Lemma augment_row_cells (with_nat : bool) (r r' : Row) :
  augment_row with_nat r = Ok r' ->
  label r' = label r ∧
  mid_price r = Ok (cell "marketPrice" r') ∧
  v_to_datetime (cell "expirationDate" r) = Ok (cell "expirationDate" r') ∧
  days_to_expiration with_nat r = Ok (cell "daysToExpiration" r') ∧
  v_div (cell "daysToExpiration" r') (VFloat 365) = Ok (cell "timeToExpiration" r') ∧
  v_div (cell "underlyingPrice" r) (cell "strike" r) = Ok (cell "moneyness" r') ∧
  cell "riskFreeRate" r' = VFloat RISK_FREE_RATE ∧
  ∀ c, c ∉ ["marketPrice"; "expirationDate"; "daysToExpiration";
            "timeToExpiration"; "moneyness"; "riskFreeRate"] ->
       cells r' !! c = cells r !! c.
Proof.
  unfold augment_row. intros H. inv_ok. cells.
  repeat split; try done.
  intros c Hc. simpl. rewrite !lookup_insert_ne; [done|..];
    intros ?; subst c; apply Hc; listed.
Qed.

Lemma cell_project (cols : list string) (c : string) (r : Row) :
  c ∈ cols -> cell c (project cols r) = cell c r.
Proof.
  intros Hc. unfold cell at 1, project. simpl.
  induction cols as [|c' cols IH]; [by apply elem_of_nil in Hc|].
  simpl. destruct (decide (c' = c)) as [->|Hne].
  - by rewrite lookup_insert_eq.
  - rewrite lookup_insert_ne by done. apply IH.
    apply elem_of_cons in Hc as [->|]; done.
Qed.

Lemma Forall2_elem_r {A B} (P : A -> B -> Prop) (l : list A) (k : list B) (y : B) :
  Forall2 P l k -> y ∈ k -> ∃ x, x ∈ l ∧ P x y.
Proof.
  intros HP Hy. apply list_elem_of_lookup in Hy as [i Hi].
  destruct (Forall2_lookup_r _ _ _ _ _ HP Hi) as (x & Hx & Hxy).
  exists x. split; [|done]. apply list_elem_of_lookup. eauto.
Qed.

(** Every output row is the record of an input row that passed both
    filters. *)
Lemma output_row_source (df df' out : DataFrame) (o : Row) :
  process_and_clean_data df = Ok (df', out) ->
  o ∈ rows out ->
  ∃ r r', r ∈ rows df ∧ r' ∈ rows df' ∧
          augment_row (some_nat (rows df)) r = Ok r' ∧
          o = project final_cols r' ∧
          liquid r = true ∧ complete final_cols o = true.
Proof.
  intros H Ho.
  destruct (process_augments _ _ _ H) as [_ Haug].
  destruct (process_output _ _ _ H) as [_ Hout].
  rewrite Hout in Ho.
  apply list_elem_of_filter in Ho as [Hcomp Ho].
  apply list_elem_of_fmap in Ho as (r' & -> & Hr').
  apply list_elem_of_filter in Hr' as [Hliq Hr'].
  apply mapM_Ok in Haug.
  destruct (Forall2_elem_r _ _ _ _ Haug Hr') as (r & Hr & Hrr').
  exists r, r'. repeat split; try done.
  by rewrite <- (augment_row_liquid _ _ _ Hrr').
Qed.

Lemma Forall2_and_l {A B} (P : A -> B -> Prop) (Q : A -> Prop)
    (l : list A) (k : list B) :
  Forall2 P l k -> (∀ x, x ∈ l -> Q x) -> Forall2 (fun x y => P x y ∧ Q x) l k.
Proof.
  induction 1 as [|x y l k Hxy _ IH]; intros HQ; constructor.
  - split; [done|]. apply HQ. by left.
  - apply IH. intros z Hz. apply HQ. by right.
Qed.

(** The surviving input rows, in input order, next to their records. *)
Lemma output_order (df df' out : DataFrame) :
  process_and_clean_data df = Ok (df', out) ->
  ∃ kept, kept `sublist_of` rows df ∧
          Forall2 (fun r o => feature_row (some_nat (rows df)) r = Ok o ∧
                              survives (some_nat (rows df)) r = true)
                  kept (rows out).
Proof.
  intros H. pose proof (process_rows _ _ _ H) as Hrows. cbn zeta in Hrows.
  exists (filter (fun r => survives (some_nat (rows df)) r = true) (rows df)).
  split; [apply sublist_filter|].
  apply mapM_Ok in Hrows. apply Forall2_and_l; [exact Hrows|].
  intros r Hr. by apply list_elem_of_filter in Hr as [? _].
Qed.

Lemma feature_row_cells (with_nat : bool) (r o : Row) :
  feature_row with_nat r = Ok o ->
  ∃ r', augment_row with_nat r = Ok r' ∧ label o = label r ∧
        ∀ c, c ∈ final_cols -> cell c o = cell c r'.
Proof.
  unfold feature_row. intros H. apply fmap_Ok in H as (r' & Hr' & ->).
  exists r'. destruct (augment_row_cells _ _ _ Hr') as [Hl _].
  split; [done|]. split; [done|]. intros c Hc. by apply cell_project.
Qed.

Lemma survives_liquid (with_nat : bool) (r : Row) :
  survives with_nat r = true ->
  v_gt0 (cell "bid" r) = Ok true ∧ v_gt0 (cell "ask" r) = Ok true.
Proof.
  unfold survives, liquid. intros H. apply andb_true_iff in H as [H _].
  destruct (v_gt0 (cell "bid" r)) as [[]|], (v_gt0 (cell "ask" r)) as [[]|];
    done.
Qed.

Lemma mid_price_float (r : Row) (b a : float) :
  cell "bid" r = VFloat b -> cell "ask" r = VFloat a ->
  mid_price r = Ok (VFloat ((b + a) / 2)%float).
Proof. unfold mid_price. by intros -> ->. Qed.

(** ** The claims on the Feature Processor *)

(** C1: for every row the processor handles, the derived market price
    is the midpoint [(bid + ask) / 2.0] of that row's bid and ask: in
    the augmented frame, and in every row of the returned frame, which
    carries the midpoint of the input row it comes from. *)
Theorem market_price_is_midpoint (df df' out : DataFrame) :
  process_and_clean_data df = Ok (df', out) ->
  Forall2 (fun r r' => mid_price r = Ok (cell "marketPrice" r'))
          (rows df) (rows df') ∧
  (∀ o, o ∈ rows out ->
        ∃ r, r ∈ rows df ∧ label r = label o ∧
             mid_price r = Ok (cell "marketPrice" o)) ∧
  (∀ r b a, cell "bid" r = VFloat b -> cell "ask" r = VFloat a ->
            mid_price r = Ok (VFloat ((b + a) / 2)%float)).
Proof.
  intros H. split; [|split].
  - destruct (process_augments _ _ _ H) as [_ Haug].
    apply mapM_Ok in Haug. eapply Forall2_impl; [exact Haug|].
    intros r r' Hr. by destruct (augment_row_cells _ _ _ Hr) as (_ & ? & _).
  - intros o Ho.
    destruct (output_row_source _ _ _ _ H Ho) as (r & r' & Hr & _ & Haug & -> & _).
    exists r. destruct (augment_row_cells _ _ _ Haug) as (Hl & Hm & _).
    repeat split; [done..|].
    rewrite cell_project; [done | listed].
  - apply mid_price_float.
Qed.

(** A float above zero is a number, and is not zero or below. *)
Lemma positive_float (x : float) :
  (0 <? x)%float = true ->
  PrimFloat.is_nan x = false ∧ (x <=? 0)%float = false.
Proof.
  unfold PrimFloat.is_nan.
  rewrite FloatAxioms.ltb_spec, FloatAxioms.leb_spec, FloatAxioms.eqb_spec.
  change (Prim2SF 0) with (S754_zero false).
  destruct (Prim2SF x) as [s|s| |s m e]; unfold SFltb, SFleb, SFeqb; simpl;
    try discriminate; destruct s; try discriminate; intros _; split;
    try reflexivity.
  rewrite Z.compare_refl, Pos.compare_cont_refl. reflexivity.
Qed.

(** C2: every row the processor returns comes from an input row whose
    bid and ask are both greater than zero: the returned rows are, in
    order, the records of a sublist of the input rows, and a float bid
    or ask of a row of that sublist is above zero, so neither missing
    (NaN), nor zero, nor negative. *)
Theorem persisted_rows_are_liquid (df df' out : DataFrame) :
  process_and_clean_data df = Ok (df', out) ->
  ∃ kept, kept `sublist_of` rows df ∧
    Forall2 (fun r o => label o = label r ∧
                        v_gt0 (cell "bid" r) = Ok true ∧
                        v_gt0 (cell "ask" r) = Ok true)
            kept (rows out) ∧
    ∀ r x, r ∈ kept ->
           (cell "bid" r = VFloat x ∨ cell "ask" r = VFloat x) ->
           (0 <? x)%float = true ∧
           PrimFloat.is_nan x = false ∧ (x <=? 0)%float = false.
Proof.
  intros H. destruct (output_order _ _ _ H) as (kept & Hsub & Hkept).
  exists kept. split; [done|]. split.
  - eapply Forall2_impl; [exact Hkept|]. intros r o [Hf Hs].
    destruct (feature_row_cells _ _ _ Hf) as (_ & _ & Hl & _).
    destruct (survives_liquid _ _ Hs). done.
  - intros r x Hr Hx.
    apply Forall2_Forall_l with (Q := fun r => survives (some_nat (rows df)) r = true)
      in Hkept.
    + rewrite Forall_forall in Hkept. apply Hkept, survives_liquid in Hr as [Hb Ha].
      assert ((0 <? x)%float = true) as Hpos.
      { destruct Hx as [Hx|Hx]; rewrite Hx in *; simpl in *; congruence. }
      split; [done|]. by apply positive_float.
    + apply Forall_true. by intros ? ? [_ ?].
Qed.

(** C3: for every row, [timeToExpiration] is [daysToExpiration / 365.0],
    where [daysToExpiration] is the whole number of days (the floor)
    from the fetch timestamp to the expiration date; a negative number
    of days is kept: a quote that expired before it was fetched comes
    out of the processor with a negative time to expiration. *)
Theorem time_to_expiration_in_years (df df' out : DataFrame) :
  process_and_clean_data df = Ok (df', out) ->
  Forall2 (fun r r' =>
    v_div (cell "daysToExpiration" r') (VFloat 365) = Ok (cell "timeToExpiration" r') ∧
    ∀ e t, v_to_datetime (cell "expirationDate" r) = Ok (VTime e) ->
           cell "timestamp" r = VTime t ->
           let days := (e - t) `div` NS_PER_DAY in
           (cell "daysToExpiration" r' = VInt days ∨
            cell "daysToExpiration" r' = VFloat (float_of_Z days)) ∧
           cell "timeToExpiration" r' = VFloat (float_of_Z days / 365)%float)
    (rows df) (rows df') ∧
  (∀ o, o ∈ rows out ->
        ∃ r', r' ∈ rows df' ∧ label r' = label o ∧
              cell "timeToExpiration" o = cell "timeToExpiration" r') ∧
  (∃ r o, process_and_clean_data expired_raw
          = Ok (mkDF (augmented_columns raw_columns) [r], mkDF final_cols [o]) ∧
          cell "daysToExpiration" r = VInt (-1) ∧
          cell "timeToExpiration" o = VFloat (float_of_Z (-1) / 365)%float).
Proof.
  intros H. split; [|split].
  - destruct (process_augments _ _ _ H) as [_ Haug].
    apply mapM_Ok in Haug. eapply Forall2_impl; [exact Haug|].
    intros r r' Hr.
    destruct (augment_row_cells _ _ _ Hr) as (_ & _ & _ & Hd & Ht & _).
    split; [done|]. intros e t He Hts days.
    unfold days_to_expiration in Hd. rewrite He, Hts in Hd. simpl in Hd.
    fold days in Hd. unfold days_cell in Hd.
    destruct (some_nat (rows df)); injection Hd as Hd; rewrite <- Hd in *;
      simpl in Ht; injection Ht as <-; auto.
  - intros o Ho.
    destruct (output_row_source _ _ _ _ H Ho) as (r & r' & _ & Hr' & _ & -> & _).
    exists r'. split; [done|]. split; [done|].
    rewrite cell_project; [done|listed].
  - eexists _, _. split; [vm_compute; reflexivity|]. split; vm_compute; reflexivity.
Qed.

(** C4: for every row, [moneyness] is the float quotient
    [underlyingPrice / strike]; the division is not guarded, and a row
    with a zero strike goes through it: the quotient is then
    [infinity] (or [nan]), the row is neither rejected nor dropped for
    its strike. *)
Theorem moneyness_is_unguarded_quotient (df df' out : DataFrame) :
  process_and_clean_data df = Ok (df', out) ->
  Forall2 (fun r r' =>
    v_div (cell "underlyingPrice" r) (cell "strike" r) = Ok (cell "moneyness" r'))
    (rows df) (rows df') ∧
  (∀ o, o ∈ rows out ->
        ∃ r, r ∈ rows df ∧ label r = label o ∧
             v_div (cell "underlyingPrice" r) (cell "strike" r)
             = Ok (cell "moneyness" o)) ∧
  (∀ s k, v_div (VFloat s) (VFloat k) = Ok (VFloat (s / k)%float)) ∧
  (∃ r o, process_and_clean_data zero_strike_raw
          = Ok (mkDF (augmented_columns raw_columns) [r], mkDF final_cols [o]) ∧
          cell "strike" o = VFloat 0 ∧
          cell "underlyingPrice" o = VFloat 105 ∧
          cell "moneyness" o = VFloat infinity).
Proof.
  intros H. split; [|split; [|split]].
  - destruct (process_augments _ _ _ H) as [_ Haug].
    apply mapM_Ok in Haug. eapply Forall2_impl; [exact Haug|].
    intros r r' Hr. by destruct (augment_row_cells _ _ _ Hr) as (_&_&_&_&_&?&_).
  - intros o Ho.
    destruct (output_row_source _ _ _ _ H Ho) as (r & r' & Hr & _ & Haug & -> & _).
    exists r. destruct (augment_row_cells _ _ _ Haug) as (Hl&_&_&_&_&Hm&_).
    split; [done|]. split; [done|].
    rewrite cell_project; [done|listed].
  - done.
  - eexists _, _. split; [vm_compute; reflexivity|].
    repeat split; vm_compute; reflexivity.
Qed.

Lemma project_lookup (cols : list string) (c : string) (r : Row) :
  c ∈ cols -> cells (project cols r) !! c = Some (cell c r).
Proof.
  intros Hc. unfold project. simpl.
  induction cols as [|c' cols IH]; [by apply elem_of_nil in Hc|].
  simpl. destruct (decide (c' = c)) as [->|Hne].
  - by rewrite lookup_insert_eq.
  - rewrite lookup_insert_ne by done. apply IH.
    apply elem_of_cons in Hc as [->|]; done.
Qed.

Lemma complete_spec (cols : list string) (r : Row) :
  complete cols r = true <-> ∀ c, c ∈ cols -> isna (cell c r) = false.
Proof.
  unfold complete. rewrite forallb_forall. split.
  - intros H c Hc. apply list_elem_of_In, H in Hc. by apply negb_true_iff.
  - intros H c Hc. apply negb_true_iff, H, list_elem_of_In, Hc.
Qed.

(** C5: the returned frame has exactly the eight projected columns,
    every row of it holds a value that is not missing in each of them,
    and a row of the augmented frame with a missing value in one of
    them is not returned. *)
Theorem persisted_rows_are_complete (df df' out : DataFrame) :
  process_and_clean_data df = Ok (df', out) ->
  columns out = final_cols ∧
  (∀ o c, o ∈ rows out -> c ∈ final_cols ->
          ∃ v, cells o !! c = Some v ∧ isna v = false) ∧
  (∀ r' c, r' ∈ rows df' -> c ∈ final_cols -> isna (cell c r') = true ->
           project final_cols r' ∉ rows out).
Proof.
  intros H. destruct (process_output _ _ _ H) as [Hc Hr].
  assert (∀ o, o ∈ rows out ->
               (∃ r', o = project final_cols r') ∧
               ∀ c, c ∈ final_cols -> isna (cell c o) = false) as Hout.
  { intros o Ho. rewrite Hr in Ho.
    apply list_elem_of_filter in Ho as [Hcomp Ho].
    apply list_elem_of_fmap in Ho as (r' & -> & _).
    split; [eauto|]. by apply complete_spec. }
  split; [done|]. split.
  - intros o c Ho Hc'. destruct (Hout o Ho) as [[r' ->] Hna].
    exists (cell c r'). split; [by apply project_lookup|].
    rewrite <- (cell_project final_cols) by done. by apply Hna.
  - intros r' c _ Hc' Hna Hin. destruct (Hout _ Hin) as [_ Hok].
    specialize (Hok c Hc'). rewrite cell_project in Hok by done. congruence.
Qed.



(** ** The script's monad *)

Lemma IO_bind_Ok {A B} (m : IO A) (k : A -> IO B) (σ σ' : State) (b : B) :
  (m ≫= k) σ = (Ok b, σ') ->
  ∃ a σ1, m σ = (Ok a, σ1) ∧ k a σ1 = (Ok b, σ').
Proof.
  unfold mbind, IO_bind. destruct (m σ) as [[a|e] σ1]; [eauto | discriminate].
Qed.

Lemma IO_bind_run {A B} (m : IO A) (k : A -> IO B) (σ σ1 : State) (a : A) :
  m σ = (Ok a, σ1) -> (m ≫= k) σ = k a σ1.
Proof. unfold mbind, IO_bind. by intros ->. Qed.

Lemma keeps_files_bind {A B} (m : IO A) (k : A -> IO B) :
  keeps_files m -> (∀ a, keeps_files (k a)) -> keeps_files (m ≫= k).
Proof.
  intros Hm Hk σ. unfold mbind, IO_bind. specialize (Hm σ).
  destruct (m σ) as [[a|e] σ1]; simpl in *; [|done].
  by rewrite Hk.
Qed.

Lemma keeps_files_ret {A} (a : A) : keeps_files (mret a : IO A).
Proof. done. Qed.

Lemma keeps_files_lift {A} (r : result A) : keeps_files (lift r).
Proof. done. Qed.

Lemma keeps_files_print (line : string) : keeps_files (print line).
Proof. done. Qed.

Lemma keeps_files_now : keeps_files datetime_now.
Proof. done. Qed.

Lemma keeps_files_try {A} (body : IO A) (handler : exn -> option (IO A)) :
  keeps_files body ->
  (∀ e h, handler e = Some h -> keeps_files h) ->
  keeps_files (try_except body handler).
Proof.
  intros Hb Hh σ. unfold try_except. specialize (Hb σ).
  destruct (body σ) as [[a|e] σ1]; simpl in *; [done|].
  destruct (handler e) as [h|] eqn:He; [|done].
  by rewrite (Hh e h He).
Qed.

(** ** The fetcher *)

Lemma fetch_expiration_files stock t p e : keeps_files (fetch_expiration stock t p e).
Proof.
  unfold fetch_expiration.
  repeat first [ apply keeps_files_bind; [|intros ?]
               | apply keeps_files_lift | apply keeps_files_now
               | apply keeps_files_ret ].
Qed.

Lemma fetch_loop_files stock t p es acc : keeps_files (fetch_loop stock t p es acc).
Proof.
  revert acc. induction es as [|e es IH]; intros acc; simpl.
  - apply keeps_files_ret.
  - apply keeps_files_bind; [apply fetch_expiration_files | intros ?; apply IH].
Qed.

Lemma fetch_options_data_files t : keeps_files (fetch_options_data t).
Proof.
  unfold fetch_options_data. apply keeps_files_bind.
  - apply keeps_files_try; [apply keeps_files_lift|].
    intros e h He. destruct e; try discriminate. injection He as <-.
    apply keeps_files_bind; [apply keeps_files_print | intros ?; apply keeps_files_ret].
  - intros [p|]; [|apply keeps_files_ret].
    apply keeps_files_bind; [apply keeps_files_lift | intros es].
    apply keeps_files_bind; [apply fetch_loop_files | intros frames].
    destruct frames; [apply keeps_files_ret | apply keeps_files_lift].
Qed.

Lemma fetch_expiration_Ok stock t p e chain σ :
  option_chain stock e = Ok chain ->
  ∃ df, fetch_expiration stock t p e σ = (Ok df, after_ticks 1 σ) ∧
        rows df = expiration_rows t p e (VTime (clock (ticks σ))) chain ∧
        "underlyingPrice" ∈ columns df.
Proof.
  intros Hc. unfold fetch_expiration.
  eexists. split; [|split].
  - unfold mbind at 1, IO_bind, lift. rewrite Hc. simpl.
    unfold after_ticks. rewrite Nat.add_1_r. reflexivity.
  - simpl. unfold expiration_rows, stamp.
    rewrite app_nil_r, !fmap_app, <- !list_fmap_compose. done.
  - simpl. apply elem_of_add_column. by left.
Qed.

Lemma after_ticks_S (n : nat) (σ : State) :
  after_ticks n (after_ticks 1 σ) = after_ticks (S n) σ.
Proof. unfold after_ticks. simpl. f_equal. lia. Qed.

Lemma after_ticks_0 (σ : State) : after_ticks 0 σ = σ.
Proof. destruct σ. unfold after_ticks. simpl. by rewrite Nat.add_0_r. Qed.

(** The loop over the expirations, when every chain is served. *)
Lemma fetch_loop_Ok stock t p es chains acc σ :
  Forall2 (fun e chain => option_chain stock e = Ok chain) es chains ->
  ∃ frames,
    fetch_loop stock t p es acc σ
    = (Ok (acc ++ frames), after_ticks (length es) σ) ∧
    length frames = length es ∧
    mjoin (rows <$> frames) = ticker_rows t p (ticks σ) es chains ∧
    Forall (fun df => "underlyingPrice" ∈ columns df) frames.
Proof.
  intros H. revert acc σ.
  induction H as [|e chain es chains He _ IH]; intros acc σ.
  - exists []. simpl. rewrite app_nil_r, after_ticks_0. done.
  - destruct (fetch_expiration_Ok stock t p e chain σ He) as (df & Hdf & Hrows & Hcol).
    destruct (IH (acc ++ [df]) (after_ticks 1 σ)) as (frames & Hloop & Hlen & Hjoin & Hall).
    exists (df :: frames). split; [|split; [|split]].
    + cbn [fetch_loop length].
      by rewrite (IO_bind_run _ _ _ _ _ Hdf), Hloop, after_ticks_S, <- app_assoc.
    + simpl. by rewrite Hlen.
    + change (rows df ++ mjoin (rows <$> frames)
              = expiration_rows t p e (VTime (clock (ticks σ))) chain ++
                ticker_rows t p (S (ticks σ)) es chains).
      rewrite Hrows, Hjoin. simpl. by rewrite Nat.add_1_r.
    + by constructor.
Qed.

(** A loop that returns was served every chain. *)
Lemma fetch_loop_chains stock t p es acc σ frames σ' :
  fetch_loop stock t p es acc σ = (Ok frames, σ') ->
  ∃ chains, Forall2 (fun e chain => option_chain stock e = Ok chain) es chains.
Proof.
  revert acc σ. induction es as [|e es IH]; intros acc σ H; [by exists []|].
  simpl in H. apply IO_bind_Ok in H as (df & σ1 & Hdf & H).
  apply IH in H as [chains Hchains].
  unfold fetch_expiration in Hdf. apply IO_bind_Ok in Hdf as (chain & ? & Hc & _).
  unfold lift in Hc. injection Hc as Hc _.
  exists (chain :: chains). by constructor.
Qed.

Lemma elem_of_union_columns (c : string) (acc cols : list string) :
  c ∈ union_columns acc cols <-> c ∈ acc ∨ c ∈ cols.
Proof. generic.
  unfold union_columns. revert acc.
  induction cols as [|c' cols IH]; intros acc; simpl.
  - rewrite elem_of_nil. tauto.
  - rewrite IH, elem_of_add_column, elem_of_cons. tauto.
Qed.

Lemma elem_of_concat_columns (c : string) (acc : list string) (dfs : list DataFrame) :
  c ∈ foldl union_columns acc (columns <$> dfs)
  <-> c ∈ acc ∨ ∃ df, df ∈ dfs ∧ c ∈ columns df.
Proof.
  revert acc. induction dfs as [|df dfs IH]; intros acc; simpl.
  - split; [auto | intros [?|(? & H & _)]; [done | by apply elem_of_nil in H]].
  - rewrite IH, elem_of_union_columns. split.
    + intros [[?|?]|(df' & ? & ?)]; eauto.
      * right. exists df. split; [by left | done].
      * right. exists df'. split; [by right | done].
    + intros [?|(df' & Hin & ?)]; [auto|].
      apply elem_of_cons in Hin as [->|?]; eauto.
Qed.

Lemma elem_of_relabel (r : Row) (rs : list Row) :
  r ∈ relabel rs -> ∃ r0, r0 ∈ rs ∧ cells r = cells r0.
Proof.
  unfold relabel. intros H. apply list_elem_of_lookup in H as [i Hi].
  rewrite list_lookup_imap in Hi.
  destruct (rs !! i) as [r0|] eqn:Hr0; [|discriminate].
  injection Hi as <-. exists r0. split; [|done].
  apply list_elem_of_lookup. eauto.
Qed.

Lemma relabel_nil (rs : list Row) : relabel rs = [] <-> rs = [].
Proof. unfold relabel. destruct rs; simpl; split; done. Qed.

(** ** What the fetcher returns

    The three ways a call of [fetch_options_data] ends without an
    error, and the fact that there is no other. *)

Lemma fetch_no_price t σ :
  current_price (yf_Ticker t) = Raise IndexError ->
  fetch_options_data t σ = (Ok DataFrame_new, after_print (skip_message t) σ).
Proof.
  intros H. unfold fetch_options_data.
  unfold mbind at 1, IO_bind, try_except, lift. rewrite H. reflexivity.
Qed.

Lemma fetch_no_expirations t σ p :
  current_price (yf_Ticker t) = Ok p ->
  options (yf_Ticker t) = Ok [] ->
  fetch_options_data t σ = (Ok DataFrame_new, σ).
Proof.
  intros Hp Ho. unfold fetch_options_data.
  unfold mbind at 1, IO_bind, try_except, lift. rewrite Hp. simpl.
  unfold mbind at 1, IO_bind, lift. rewrite Ho. reflexivity.
Qed.

Lemma fetch_expirations t σ p es chains :
  current_price (yf_Ticker t) = Ok p ->
  options (yf_Ticker t) = Ok es ->
  es ≠ [] ->
  Forall2 (fun e chain => option_chain (yf_Ticker t) e = Ok chain) es chains ->
  ∃ df, fetch_options_data t σ = (Ok df, after_ticks (length es) σ) ∧
        rows df = relabel (ticker_rows t p (ticks σ) es chains) ∧
        "underlyingPrice" ∈ columns df.
Proof.
  intros Hp Ho Hne Hch. unfold fetch_options_data.
  unfold mbind at 1, IO_bind, try_except, lift. rewrite Hp. simpl.
  unfold mbind at 1, IO_bind, lift. rewrite Ho.
  destruct (fetch_loop_Ok (yf_Ticker t) t p es chains [] σ Hch)
    as (frames & Hloop & Hlen & Hjoin & Hall).
  rewrite (IO_bind_run _ _ _ _ _ Hloop). simpl.
  destruct frames as [|df frames]; [by destruct es|].
  eexists. split; [reflexivity|]. simpl. split.
  - f_equal. exact Hjoin.
  - apply elem_of_concat_columns. left. apply elem_of_union_columns. right.
    by inversion Hall.
Qed.

Lemma fetch_Ok t σ df σ' :
  fetch_options_data t σ = (Ok df, σ') ->
  (current_price (yf_Ticker t) = Raise IndexError ∧
   df = DataFrame_new ∧ σ' = after_print (skip_message t) σ) ∨
  (∃ p es chains,
     current_price (yf_Ticker t) = Ok p ∧
     options (yf_Ticker t) = Ok es ∧
     Forall2 (fun e chain => option_chain (yf_Ticker t) e = Ok chain) es chains ∧
     σ' = after_ticks (length es) σ ∧
     ((es = [] ∧ df = DataFrame_new) ∨
      (es ≠ [] ∧ rows df = relabel (ticker_rows t p (ticks σ) es chains) ∧
       "underlyingPrice" ∈ columns df))).
Proof.
  intros H.
  destruct (current_price (yf_Ticker t)) as [p|e] eqn:Hp.
  - right. destruct (options (yf_Ticker t)) as [es|e] eqn:Ho.
    + assert (∃ chains, Forall2 (fun e chain =>
                option_chain (yf_Ticker t) e = Ok chain) es chains) as [chains Hch].
      { unfold fetch_options_data in H.
        unfold mbind at 1, IO_bind, try_except, lift in H. rewrite Hp in H.
        simpl in H. unfold mbind at 1, IO_bind, lift in H. rewrite Ho in H.
        apply IO_bind_Ok in H as (frames & σ1 & Hloop & _).
        by apply fetch_loop_chains in Hloop. }
      exists p, es, chains. split; [done|]. split; [done|]. split; [done|].
      destruct es as [|e es].
      * rewrite (fetch_no_expirations t σ p Hp Ho) in H. injection H as <- <-.
        rewrite after_ticks_0. auto.
      * destruct (fetch_expirations t σ p (e :: es) chains Hp Ho) as (df0 & Hf & ? & ?);
          [done..|].
        rewrite Hf in H. injection H as <- <-. split; [done|]. right. done.
    + exfalso. unfold fetch_options_data in H.
      unfold mbind at 1, IO_bind, try_except, lift in H. rewrite Hp in H.
      simpl in H. unfold mbind at 1, IO_bind, lift in H. by rewrite Ho in H.
  - destruct e;
      try (exfalso; unfold fetch_options_data in H;
           unfold mbind at 1, IO_bind, try_except, lift in H;
           rewrite Hp in H; discriminate).
    left. rewrite (fetch_no_price t σ Hp) in H. by injection H as <- <-.
Qed.

Lemma fmap_eq_nil {A B} (f : A -> B) (l : list A) : f <$> l = [] <-> l = [].
Proof. by destruct l. Qed.

Lemma ticker_rows_price t p n es chains r :
  r ∈ ticker_rows t p n es chains -> cells r !! "underlyingPrice" = Some p.
Proof.
  revert n chains. induction es as [|e es IH]; intros n [|chain chains] Hr;
    try by apply elem_of_nil in Hr.
  simpl in Hr. apply elem_of_app in Hr as [Hr|Hr]; [|by eapply IH].
  unfold expiration_rows in Hr.
  apply elem_of_app in Hr as [Hr|Hr];
    apply list_elem_of_fmap in Hr as (r0 & -> & _);
    unfold stamp; simpl; by rewrite lookup_insert_eq.
Qed.

Lemma ticker_rows_nil t p n es chains :
  length es = length chains ->
  ticker_rows t p n es chains = [] <->
  Forall (fun chain => rows chain.1 = [] ∧ rows chain.2 = []) chains.
Proof. generic.
  revert n chains. induction es as [|e es IH]; intros n [|chain chains] Hlen;
    try discriminate.
  - split; [constructor | done].
  - simpl. injection Hlen as Hlen. unfold expiration_rows.
    rewrite Forall_cons, <- (IH (S n) chains Hlen).
    rewrite !app_nil, !fmap_eq_nil. tauto.
Qed.

(** ** The claims on the Fetcher *)

(** C6, as the code has it: the fetcher returns [pd.DataFrame()] in
    exactly two cases, when the price lookup finds no row (the
    [IndexError] it catches, which it reports on the console and does
    not raise) and when the ticker offers no expiration; otherwise it
    returns the rows of every expiration offered, calls before puts,
    relabelled from zero.  That collection has no row exactly when
    every chain served is empty. *)
Theorem fetcher_results (t : string) (σ : State) :
  let stock := yf_Ticker t in
  (current_price stock = Raise IndexError ->
   fetch_options_data t σ = (Ok DataFrame_new, after_print (skip_message t) σ)) ∧
  (∀ p, current_price stock = Ok p -> options stock = Ok [] ->
        fetch_options_data t σ = (Ok DataFrame_new, σ)) ∧
  (∀ p es chains,
     current_price stock = Ok p -> options stock = Ok es -> es ≠ [] ->
     Forall2 (fun e chain => option_chain stock e = Ok chain) es chains ->
     ∃ df, fetch_options_data t σ = (Ok df, after_ticks (length es) σ) ∧
           rows df = relabel (ticker_rows t p (ticks σ) es chains) ∧
           df ≠ DataFrame_new ∧
           (empty df = true <->
            Forall (fun chain => rows chain.1 = [] ∧ rows chain.2 = []) chains)) ∧
  (∀ df σ', fetch_options_data t σ = (Ok df, σ') ->
            df = DataFrame_new <->
            current_price stock = Raise IndexError ∨ options stock = Ok []).
Proof.
  intros stock. split; [apply fetch_no_price|].
  split; [intros p; apply fetch_no_expirations|]. split.
  - intros p es chains Hp Ho Hne Hch.
    destruct (fetch_expirations t σ p es chains Hp Ho Hne Hch) as (df & Hf & Hr & Hc).
    exists df. split; [done|]. split; [done|]. split.
    + intros ->. by apply elem_of_nil in Hc.
    + rewrite <- (ticker_rows_nil t p (ticks σ) es chains)
        by (by eapply Forall2_length).
      rewrite <- relabel_nil, <- Hr. unfold empty.
      destruct (columns df) as [|c cols]; [by apply elem_of_nil in Hc|].
      destruct (rows df); split; done.
  - intros df σ' H. split.
    + intros ->.
      destruct (fetch_Ok _ _ _ _ H) as [(? & _)|(p & es & chains & Hp & Ho & _ & _ & Hes)];
        [auto|].
      destruct Hes as [[-> _]|(_ & _ & Hc)]; [auto|by apply elem_of_nil in Hc].
    + intros [Hp|Ho].
      * rewrite (fetch_no_price t σ Hp) in H. by injection H as <- _.
      * destruct (fetch_Ok _ _ _ _ H) as [(_ & -> & _)|(p & es & chains & _ & Ho' & _ & _ & Hes)];
          [done|].
        fold stock in Ho'. rewrite Ho in Ho'. injection Ho' as <-.
        by destruct Hes as [[_ ->]|[? _]].
Qed.

(** C10: all the rows one call of the fetcher returns carry the same
    underlying price: the close price read once before the loop over
    the expirations. *)
Theorem underlying_price_is_constant (t : string) (σ σ' : State) (df : DataFrame) :
  fetch_options_data t σ = (Ok df, σ') ->
  ∃ p, (∀ r, r ∈ rows df -> cells r !! "underlyingPrice" = Some p) ∧
       (rows df ≠ [] -> current_price (yf_Ticker t) = Ok p).
Proof.
  intros H.
  destruct (fetch_Ok _ _ _ _ H) as [(_ & -> & _)|(p & es & chains & Hp & _ & _ & _ & Hes)].
  - exists VNA. split; [intros r Hr; by apply elem_of_nil in Hr | done].
  - exists p. split; [|done]. intros r Hr.
    destruct Hes as [[_ ->]|(_ & Hrows & _)]; [by apply elem_of_nil in Hr|].
    rewrite Hrows in Hr. apply elem_of_relabel in Hr as (r0 & Hr0 & ->).
    by eapply ticker_rows_price.
Qed.

(** ** The claims on the script *)

Lemma main_loop_files tickers acc : keeps_files (main_loop tickers acc).
Proof.
  revert acc. induction tickers as [|t tickers IH]; intros acc; simpl.
  - apply keeps_files_ret.
  - apply keeps_files_bind; [apply keeps_files_print | intros _].
    apply keeps_files_bind; [apply fetch_options_data_files | intros ?; apply IH].
Qed.

Lemma main_loop_no_data tickers acc σ :
  (∀ t σ, t ∈ tickers ->
          ∃ df σ', fetch_options_data t σ = (Ok df, σ') ∧ empty df = true) ->
  ∃ σ', main_loop tickers acc σ = (Ok acc, σ') ∧ fs σ' = fs σ.
Proof.
  intros Hempty.
  assert (∃ σ', main_loop tickers acc σ = (Ok acc, σ')) as [σ' Hσ'].
  { revert σ. induction tickers as [|t tickers IH]; intros σ; simpl; [by eexists|].
    unfold mbind at 1, IO_bind, print.
    destruct (Hempty t (mkState (ticks σ) (stdout σ ++ ["Fetching data for " +:+ t +:+ "..."]) (fs σ)))
      as (df & σ1 & Hf & He); [by left|].
    rewrite (IO_bind_run _ _ _ _ _ Hf), He.
    apply IH. intros t' σ2 Ht'. apply Hempty. by right. }
  exists σ'. split; [done|].
  pose proof (main_loop_files tickers acc σ) as Hfs. by rewrite Hσ' in Hfs.
Qed.

(** C7: when the fetcher returns an empty frame for every configured
    ticker, the script prints "No data collected. Exiting.", ends
    normally and leaves every file as it was: the output file is
    neither created nor changed. *)
Theorem no_data_no_write (σ : State) :
  (∀ t σ, t ∈ TICKERS ->
          ∃ df σ', fetch_options_data t σ = (Ok df, σ') ∧ empty df = true) ->
  ∃ σ', main σ = (Ok (), σ') ∧
        fs σ' = fs σ ∧
        last (stdout σ') = Some "No data collected. Exiting.".
Proof.
  intros Hempty. unfold main.
  destruct (main_loop_no_data TICKERS []
              (after_print "Starting options data collection..." σ) Hempty)
    as (σ1 & Hloop & Hfs).
  unfold mbind at 1, IO_bind. simpl.
  change (mkState (ticks σ) (stdout σ ++ ["Starting options data collection..."]) (fs σ))
    with (after_print "Starting options data collection..." σ).
  rewrite (IO_bind_run _ _ _ _ _ Hloop). simpl.
  eexists. split; [reflexivity|]. simpl. split; [done|].
  by rewrite last_snoc.
Qed.





(** ** The columns the processor reads *)

Lemma elem_of_add_column_ne (c c' : string) (cols : list string) :
  c ≠ c' -> c ∈ add_column c' cols -> c ∈ cols.
Proof. intros Hne Hc. apply elem_of_add_column in Hc as [?|?]; done. Qed.

(** A call that returns has found every column it reads. *)
Lemma process_columns (df df' out : DataFrame) (c : string) :
  process_and_clean_data df = Ok (df', out) ->
  c ∈ required_columns -> c ∈ columns df.
Proof.
  generic. unfold process_and_clean_data. intros H Hc.
  step H bids Hbid. step H asks Hask. step H sums Hsum. step H mids Hmid.
  step H df1 Hdf1.
  step H exps Hexp. step H exps' Hexp'. step H df2 Hdf2.
  step H exps2 Hexp2. step H tss Hts. step H delta Hdelta. step H days Hdays.
  step H df3 Hdf3.
  step H days' Hdays'. step H tte Htte. step H df4 Hdf4.
  step H under Hunder. step H strikes Hstrike. step H mny Hmny.
  step H df5 Hdf5.
  step H bids' Hbid'. step H bid_pos Hbid_pos.
  step H asks' Hask'. step H ask_pos Hask_pos.
  step H processed Hprocessed.
  clear H Hbid' Hask' Hbid_pos Hask_pos.
  apply getitem_Ok in Hbid as [Hbid _]. apply getitem_Ok in Hask as [Hask _].
  apply getitem_Ok in Hexp as [Hexp _]. apply getitem_Ok in Hts as [Hts _].
  apply getitem_Ok in Hunder as [Hunder _].
  apply getitem_Ok in Hstrike as [Hstrike _].
  assert (∀ d c1 s d1, setitem d c1 s = Ok d1 ->
            columns d1 = add_column c1 (columns d)) as Hcol.
  { intros d c1 s d1. unfold setitem. case_bool_decide; [|discriminate].
    by intros [= <-]. }
  apply Hcol in Hdf1, Hdf2, Hdf3, Hdf4, Hdf5.
  unfold select in Hprocessed.
  destruct (filter _ final_cols) as [|? ?] eqn:Hf; [|discriminate].
  assert (∀ x, x ∈ final_cols -> x ≠ "riskFreeRate" -> x ∈ columns df5) as Hfin.
  { intros x Hx Hne.
    destruct (decide (x ∈ add_column "riskFreeRate" (columns df5))) as [Hin|Hout].
    - by apply elem_of_add_column_ne in Hin.
    - exfalso. eapply (filter_nil_not_elem_of _ _ x Hf); [exact Hout | exact Hx]. }
  pose proof (Hfin "optionType" ltac:(listed) ltac:(done)) as Hopt.
  pose proof (Hfin "impliedVolatility" ltac:(listed) ltac:(done)) as Hiv.
  rewrite Hdf5, Hdf4, Hdf3, Hdf2, Hdf1 in Hopt, Hiv.
  rewrite Hdf4, Hdf3, Hdf2, Hdf1 in Hunder, Hstrike.
  rewrite Hdf2, Hdf1 in Hts. rewrite Hdf1 in Hexp.
  unfold required_columns in Hc. rewrite !elem_of_cons, elem_of_nil in Hc.
  destruct Hc as [->|[->|[->|[->|[->|[->|[->|[->|[]]]]]]]]]; try done;
    match goal with
    | H : ?c ∈ _ |- ?c ∈ columns df =>
        repeat (apply elem_of_add_column_ne in H; [|done]); exact H
    end.
Qed.

(** X1: the processor needs every one of the eight columns it reads:
    on a frame that lacks one of them it raises, whatever the rows
    hold. *)
Theorem processor_needs_its_columns (df : DataFrame) (c : string) :
  c ∈ required_columns -> c ∉ columns df ->
  ∃ e, process_and_clean_data df = Raise e.
Proof.
  intros Hc Hout.
  destruct (process_and_clean_data df) as [[df' out]|e] eqn:H; [|by exists e].
  destruct Hout. by eapply process_columns.
Qed.

(** X2: a returned row copies the underlying price, the strike, the
    option type and the implied volatility of the input row it comes
    from unchanged, and its risk-free rate is the configured constant,
    whatever the input frame held under that name. *)
Theorem records_copy_raw_columns (df df' out : DataFrame) :
  process_and_clean_data df = Ok (df', out) ->
  ∀ o, o ∈ rows out ->
       ∃ r, r ∈ rows df ∧ label r = label o ∧
            (∀ c, c ∈ ["underlyingPrice"; "strike"; "optionType";
                       "impliedVolatility"] -> cell c o = cell c r) ∧
            cell "riskFreeRate" o = VFloat RISK_FREE_RATE.
Proof.
  generic. intros H o Ho.
  destruct (output_row_source _ _ _ _ H Ho) as (r & r' & Hr & _ & Haug & -> & _).
  destruct (augment_row_cells _ _ _ Haug) as (Hl & _ & _ & _ & _ & _ & Hrate & Hsame).
  exists r. split; [done|]. split; [done|]. split.
  - intros c Hc. rewrite cell_project by listed.
    unfold cell. rewrite Hsame; [done|].
    rewrite !elem_of_cons, elem_of_nil in Hc. rewrite !elem_of_cons, elem_of_nil.
    destruct Hc as [->|[->|[->|[->|[]]]]]; intros [?|[?|[?|[?|[?|[?|[]]]]]]];
      discriminate.
  - rewrite cell_project by listed. exact Hrate.
Qed.

(** ** When the fetcher raises *)

Lemma fetch_loop_Raise stock t p es chains bad rest e acc σ :
  Forall2 (fun e chain => option_chain stock e = Ok chain) es chains ->
  option_chain stock bad = Raise e ->
  fetch_loop stock t p (es ++ bad :: rest) acc σ
  = (Raise e, after_ticks (length es) σ).
Proof.
  intros H Hbad. revert acc σ.
  induction H as [|e0 chain es chains He _ IH]; intros acc σ.
  - simpl. unfold mbind at 1, IO_bind, fetch_expiration.
    unfold mbind at 1, IO_bind, lift. rewrite Hbad. by rewrite after_ticks_0.
  - destruct (fetch_expiration_Ok stock t p e0 chain σ He) as (df & Hdf & _).
    cbn [app fetch_loop length].
    by rewrite (IO_bind_run _ _ _ _ _ Hdf), IH, after_ticks_S.
Qed.

(** X3: the fetcher catches the [IndexError] of the price lookup and
    nothing else.  Any other exception of the price lookup, an exception
    of the list of expirations, and an exception of an option chain (an
    [IndexError] too) are raised to the caller; nothing is printed, and
    the clock has been read once for each expiration served before. *)
Theorem fetcher_raises (t : string) (σ : State) :
  let stock := yf_Ticker t in
  (∀ e, current_price stock = Raise e -> e ≠ IndexError ->
        fetch_options_data t σ = (Raise e, σ)) ∧
  (∀ p e, current_price stock = Ok p -> options stock = Raise e ->
          fetch_options_data t σ = (Raise e, σ)) ∧
  (∀ p es chains bad rest e,
     current_price stock = Ok p ->
     options stock = Ok (es ++ bad :: rest) ->
     Forall2 (fun e chain => option_chain stock e = Ok chain) es chains ->
     option_chain stock bad = Raise e ->
     fetch_options_data t σ = (Raise e, after_ticks (length es) σ)).
Proof.
  intros stock. split; [|split].
  - intros e He Hne. unfold fetch_options_data.
    unfold mbind at 1, IO_bind, try_except, lift. fold stock. rewrite He.
    by destruct e.
  - intros p e Hp Ho. unfold fetch_options_data.
    unfold mbind at 1, IO_bind, try_except, lift. fold stock. rewrite Hp. simpl.
    unfold mbind at 1, IO_bind, lift. by rewrite Ho.
  - intros p es chains bad rest e Hp Ho Hch Hbad. unfold fetch_options_data.
    unfold mbind at 1, IO_bind, try_except, lift. fold stock. rewrite Hp. simpl.
    unfold mbind at 1, IO_bind, lift. rewrite Ho.
    unfold mbind at 1, IO_bind.
    by rewrite (fetch_loop_Raise stock t p es chains bad rest e [] σ Hch Hbad).
Qed.

(** ** The loop over the tickers *)


(** ** What the script does to the files *)



End Pipeline.

(** ** The pipeline on the sample data *)

Lemma sample_processed :
  process_and_clean_data parse_iso_date sample_raw
  = Ok (sample_augmented, sample_features).
Proof. vm_compute. reflexivity. Qed.

Lemma sample_fetched :
  fetch_options_data sample_source sample_clock "AAPL" boot
  = (Ok sample_raw, mkState 1 [] ∅).
Proof. vm_compute. reflexivity. Qed.

(** C1 on the sample frame. *)
Lemma market_price_is_midpoint_witness :
  process_and_clean_data parse_iso_date sample_raw
  = Ok (sample_augmented, sample_features) ∧
  Forall2 (fun r r' => mid_price r = Ok (cell "marketPrice" r'))
          (rows sample_raw) (rows sample_augmented).
Proof.
  split; [exact sample_processed|].
  apply (market_price_is_midpoint parse_iso_date sample_raw sample_augmented
           sample_features sample_processed).
Defined.

(** C2 on the sample frame: the call without a bid is not returned. *)
Lemma persisted_rows_are_liquid_witness :
  process_and_clean_data parse_iso_date sample_raw
  = Ok (sample_augmented, sample_features) ∧
  ∃ kept, kept `sublist_of` rows sample_raw ∧
    Forall2 (fun r o => label o = label r ∧
                        v_gt0 (cell "bid" r) = Ok true ∧
                        v_gt0 (cell "ask" r) = Ok true)
            kept (rows sample_features).
Proof.
  split; [exact sample_processed|].
  destruct (persisted_rows_are_liquid parse_iso_date sample_raw sample_augmented
              sample_features sample_processed) as (kept & Hsub & Hkept & _).
  exists kept. split; [exact Hsub | exact Hkept].
Defined.

(** C3 on the sample frame: thirty days, 30 / 365 of a year. *)
Lemma time_to_expiration_in_years_witness :
  process_and_clean_data parse_iso_date sample_raw
  = Ok (sample_augmented, sample_features) ∧
  ∀ o, o ∈ rows sample_features ->
       ∃ r', r' ∈ rows sample_augmented ∧ label r' = label o ∧
             cell "timeToExpiration" o = cell "timeToExpiration" r'.
Proof.
  split; [exact sample_processed|].
  apply (time_to_expiration_in_years parse_iso_date sample_raw sample_augmented
           sample_features sample_processed).
Defined.

(** C4 on the sample frame. *)
Lemma moneyness_is_unguarded_quotient_witness :
  process_and_clean_data parse_iso_date sample_raw
  = Ok (sample_augmented, sample_features) ∧
  Forall2 (fun r r' =>
    v_div (cell "underlyingPrice" r) (cell "strike" r) = Ok (cell "moneyness" r'))
    (rows sample_raw) (rows sample_augmented).
Proof.
  split; [exact sample_processed|].
  apply (moneyness_is_unguarded_quotient parse_iso_date sample_raw sample_augmented
           sample_features sample_processed).
Defined.

(** C5 on the sample frame. *)
Lemma persisted_rows_are_complete_witness :
  process_and_clean_data parse_iso_date sample_raw
  = Ok (sample_augmented, sample_features) ∧
  columns sample_features = final_cols ∧
  ∀ o c, o ∈ rows sample_features -> c ∈ final_cols ->
         ∃ v, cells o !! c = Some v ∧ isna v = false.
Proof.
  split; [exact sample_processed|].
  destruct (persisted_rows_are_complete parse_iso_date sample_raw sample_augmented
              sample_features sample_processed) as (Hc & Hv & _).
  split; [exact Hc | exact Hv].
Defined.



(** C6, as stated, fails: for a ticker with a price and an expiration
    whose chain is empty the fetcher returns a frame without rows, which
    is neither of the two cases. *)
Lemma fetcher_empty_in_a_third_case :
  ¬ ∀ yf_Ticker clock t σ df σ',
      fetch_options_data yf_Ticker clock t σ = (Ok df, σ') ->
      empty df = true ->
      current_price (yf_Ticker t) = Raise IndexError ∨
      options (yf_Ticker t) = Ok [].
Proof.
  intros H.
  edestruct (H (fun _ => quiet_ticker) sample_clock "AAPL" boot) as [Hc|Hc];
    [vm_compute; reflexivity | vm_compute; reflexivity | ..];
    vm_compute in Hc; discriminate.
Qed.

(** C6 on the sample source: one expiration, two calls and a put. *)
Lemma fetcher_results_witness :
  current_price (sample_source "AAPL") = Ok (VFloat 105) ∧
  options (sample_source "AAPL") = Ok ["2026-01-16"] ∧
  ∃ df, fetch_options_data sample_source sample_clock "AAPL" boot
        = (Ok df, after_ticks 1 boot) ∧
        rows df = relabel (ticker_rows sample_clock "AAPL" (VFloat 105) 0
                             ["2026-01-16"] [(sample_calls, sample_puts)]).
Proof.
  split; [reflexivity|]. split; [reflexivity|].
  destruct (fetcher_results sample_source sample_clock "AAPL" boot)
    as (_ & _ & H & _).
  destruct (H (VFloat 105) ["2026-01-16"] [(sample_calls, sample_puts)])
    as (df & Hf & Hr & _); [reflexivity | reflexivity | discriminate | | ].
  - repeat constructor.
  - exists df. split; [exact Hf | exact Hr].
Defined.

(** C10 on the sample source. *)
Lemma underlying_price_is_constant_witness :
  fetch_options_data sample_source sample_clock "AAPL" boot
  = (Ok sample_raw, mkState 1 [] ∅) ∧
  ∃ p, (∀ r, r ∈ rows sample_raw -> cells r !! "underlyingPrice" = Some p) ∧
       (rows sample_raw ≠ [] -> current_price (sample_source "AAPL") = Ok p).
Proof.
  split; [exact sample_fetched|].
  exact (underlying_price_is_constant sample_source sample_clock "AAPL" boot _
           sample_raw sample_fetched).
Defined.

(** C7 on a source without any price. *)
Lemma no_data_no_write_witness :
  (∀ t σ, t ∈ TICKERS ->
          ∃ df σ', fetch_options_data (fun _ => delisted_ticker) sample_clock t σ
                   = (Ok df, σ') ∧ empty df = true) ∧
  ∃ σ', main parse_iso_date (fun _ => delisted_ticker) sample_clock boot = (Ok (), σ') ∧
        fs σ' = fs boot ∧
        last (stdout σ') = Some "No data collected. Exiting.".
Proof.
  assert (∀ t σ, t ∈ TICKERS ->
            ∃ df σ', fetch_options_data (fun _ => delisted_ticker) sample_clock t σ
                     = (Ok df, σ') ∧ empty df = true) as H.
  { intros t σ _. eexists _, _. split; [apply fetch_no_price; reflexivity|].
    reflexivity. }
  split; [exact H|].
  exact (no_data_no_write parse_iso_date (fun _ => delisted_ticker) sample_clock boot H).
Defined.


(** ** More of the pipeline on the sample data *)

(** Membership of a listed column. *)
Lemma sample_columns (c : string) (l1 l2 : list string) :
  forallb (fun c => bool_decide (c ∈ l2)) l1 = true -> c ∈ l1 -> c ∈ l2.
Proof.
  intros H Hc. rewrite forallb_forall in H.
  apply list_elem_of_In, H in Hc. by apply bool_decide_eq_true in Hc.
Qed.

(** X1 on a frame of contracts that has no expiration date yet. *)
Lemma processor_needs_its_columns_witness :
  ∃ e, process_and_clean_data parse_iso_date sample_calls = Raise e.
Proof.
  apply (processor_needs_its_columns parse_iso_date sample_calls "expirationDate").
  - apply (sample_columns _ ["expirationDate"]); [vm_compute; reflexivity|].
    apply list_elem_of_here.
  - intros H. apply list_elem_of_In in H. vm_compute in H. intuition discriminate.
Defined.

(** X2 on the sample frame: the record of the liquid put. *)
Lemma records_copy_raw_columns_witness :
  ∃ r, r ∈ rows sample_raw ∧ label r = 2 ∧
       (∀ c, c ∈ ["underlyingPrice"; "strike"; "optionType"; "impliedVolatility"] ->
             cell c (feature 2 105 100 "put" 1.05 (30 / 365) 0.4 2.1) = cell c r) ∧
       cell "riskFreeRate" (feature 2 105 100 "put" 1.05 (30 / 365) 0.4 2.1)
       = VFloat RISK_FREE_RATE.
Proof.
  apply (records_copy_raw_columns parse_iso_date sample_raw sample_augmented
           sample_features sample_processed
           (feature 2 105 100 "put" 1.05 (30 / 365) 0.4 2.1)).
  simpl. apply list_elem_of_further, list_elem_of_here.
Defined.

(** X3 on a source whose price history has no 'Close' column: the
    [KeyError] leaves the fetcher. *)
Lemma fetcher_raises_witness :
  current_price odd_ticker = Raise (KeyError "Close") ∧
  fetch_options_data (fun _ => odd_ticker) sample_clock "AAPL" boot
  = (Raise (KeyError "Close"), boot).
Proof.
  assert (current_price odd_ticker = Raise (KeyError "Close")) as H by reflexivity.
  split; [exact H|].
  apply (proj1 (fetcher_raises (fun _ => odd_ticker) sample_clock "AAPL" boot)
           (KeyError "Close") H).
  discriminate.
Defined.

